(** * Isolated pyannote diarization: worker, supervisor and MPS helper

    A shallow embedding of [pyannote_mps_helper.py] and
    [pyannote_isolated.py].  Calls into torch, pyannote, ffmpeg, pathlib and
    the operating system are answered by an environment record (one field
    per call site); everything the two modules do around those calls --
    control flow, exception handlers, the payloads written to the result
    file, the signals sent to the child -- is translated from the source.
    Console output ([print], [traceback.print_exc]) is not modelled. *)

From Stdlib Require Import String Ascii List ZArith NArith Lia Bool.
From Stdlib Require Import Sorting.Sorted Permutation Floats.
From stdpp Require Import gmap strings sorting.

Open Scope string_scope.
Open Scope list_scope.
Set Warnings "-register-all,-clear-no-such-hyp".

(** ** Python exceptions *)

(** The exception classes the two modules raise, catch or can receive from
    their libraries.  A subclass is folded into the class the handlers test
    for: torch's out-of-memory errors are [RuntimeError]s, and
    [ModuleNotFoundError] is an [ImportError]. *)
Inductive exn_class :=
| RuntimeError
| ImportError
| ValueError
| OSError
| CalledProcessError
| JSONDecodeError
| AttributeError
| UnboundLocalError
| StopIteration.

Record exn := mk_exn { exn_cls : exn_class; exn_msg : string }.

(** [str(e)] *)
Definition str_exn (e : exn) : string := exn_msg e.

Definition exn_class_eqb (a b : exn_class) : bool :=
  match a, b with
  | RuntimeError, RuntimeError | ImportError, ImportError
  | ValueError, ValueError | OSError, OSError
  | CalledProcessError, CalledProcessError
  | JSONDecodeError, JSONDecodeError | AttributeError, AttributeError
  | UnboundLocalError, UnboundLocalError
  | StopIteration, StopIteration => true
  | _, _ => false
  end.

(** [except RuntimeError] *)
Definition is_RuntimeError (e : exn) : bool := exn_class_eqb (exn_cls e) RuntimeError.
(** [except ImportError] *)
Definition is_ImportError (e : exn) : bool := exn_class_eqb (exn_cls e) ImportError.
(** [except json.JSONDecodeError] *)
Definition is_JSONDecodeError (e : exn) : bool := exn_class_eqb (exn_cls e) JSONDecodeError.
(** [except Exception] and the bare [except:] *)
Definition is_Exception (_ : exn) : bool := true.

(** ** Strings: [str.lower] and the [in] operator *)

Definition lower_ascii (c : ascii) : ascii :=
  let n := N_of_ascii c in
  if ((65 <=? n) && (n <=? 90))%N then ascii_of_N (n + 32) else c.

Fixpoint lower (s : string) : string :=
  match s with
  | EmptyString => EmptyString
  | String c s' => String (lower_ascii c) (lower s')
  end.

(** [needle in hay] *)
Fixpoint contains (needle hay : string) : bool :=
  String.prefix needle hay ||
  match hay with
  | EmptyString => false
  | String _ hay' => contains needle hay'
  end.

(** The test both handlers apply to a caught [RuntimeError]:
    ['out of memory' in str(e).lower() or 'memory' in str(e).lower()]. *)
Definition is_memory_error (e : exn) : bool :=
  contains "out of memory" (lower (str_exn e)) || contains "memory" (lower (str_exn e)).

(** ** JSON values and the result file *)

Inductive json :=
| JNull
| JBool (b : bool)
| JInt (n : Z)
| JFloat (f : float)
| JStr (s : string)
| JList (l : list json)
| JDict (kvs : list (string * json)).

(** [d.get(k)] on a dict literal: the value of the first binding of [k]. *)
Fixpoint dict_get (k : string) (kvs : list (string * json)) : option json :=
  match kvs with
  | [] => None
  | (k', v) :: rest => if String.eqb k k' then Some v else dict_get k rest
  end.

Definition dict_keys (kvs : list (string * json)) : list string := map fst kvs.

(** Python truth value of a JSON value. *)
Definition truthy (v : json) : bool :=
  match v with
  | JNull => false
  | JBool b => b
  | JInt n => negb (n =? 0)%Z
  | JFloat f => negb (PrimFloat.eqb f 0%float)
  | JStr s => negb (String.eqb s "")
  | JList l => match l with [] => false | _ => true end
  | JDict kvs => match kvs with [] => false | _ => true end
  end.

(** What a file holds, as [json.load] sees it: the text of a JSON document,
    or text that is not one.  A file just created by [NamedTemporaryFile]
    holds [Raw ""]. *)
Inductive content :=
| Doc (v : json)
| Raw (text : string).

(** ** Devices *)

Inductive device := cpu | mps | cuda.

(** [str(torch.device(...))] *)
Definition str_device (d : device) : string :=
  match d with cpu => "cpu" | mps => "mps" | cuda => "cuda" end.

Definition device_eqb (a b : device) : bool :=
  match a, b with
  | cpu, cpu | mps, mps | cuda, cuda => true
  | _, _ => false
  end.

(** ** The child process as the supervisor sees it *)

(** A started child that has not been seen to exit carries what the
    operating system will do with it: the seconds left until it exits
    ([None]: it does not exit) and the exit code it will leave. *)
Inductive proc_state :=
| NotStarted
| Alive (remaining : option N) (code : Z)
| Exited (code : Z).

(** ** Observable actions *)

Inductive event :=
| EvTensorAlloc                    (* torch.randn(10, 10).to('mps') *)
| EvTensorMul                      (* test_tensor * 2 *)
| EvTensorDel                      (* del test_tensor *)
| EvMpsEmptyCache                  (* torch.mps.empty_cache() *)
| EvCudaEmptyCache                 (* torch.cuda.empty_cache() *)
| EvGcCollect                      (* gc.collect() *)
| EvWarn (msg : string)            (* warnings.warn *)
| EvFromPretrained                 (* Pipeline.from_pretrained *)
| EvSetBatch (n : N)               (* pipeline.embedding_batch_size = n *)
| EvPipelineTo (d : device)        (* pipeline.to(d) *)
| EvFfmpeg (src dst : string)      (* subprocess.run(['ffmpeg', ...]) *)
| EvInfer (on : device) (audio : string)   (* pipeline(audio) *)
| EvWrite (path : string) (payload : json) (* json.dump(payload, open(path, 'w')) *)
| EvUnlink (path : string)         (* os.unlink *)
| EvMkTemp (path : string)         (* tempfile.NamedTemporaryFile(delete=False) *)
| EvRead (path : string)           (* json.load(open(path)) *)
| EvStart                          (* process.start() *)
| EvJoin (timeout : N)             (* process.join(timeout=...) *)
| EvTerminate                      (* process.terminate(): SIGTERM *)
| EvKill.                          (* process.kill(): SIGKILL *)

(** ** The world: file system, action log, clock, child *)

Record world := mk_world {
  w_fs : gmap string content;
  w_log : list event;
  w_clock : N;                     (* seconds spent in blocking waits *)
  w_child : proc_state
}.

Definition set_fs (f : gmap string content → gmap string content) (w : world) : world :=
  mk_world (f (w_fs w)) (w_log w) (w_clock w) (w_child w).
Definition add_log (ev : event) (w : world) : world :=
  mk_world (w_fs w) (w_log w ++ [ev]) (w_clock w) (w_child w).
Definition add_clock (d : N) (w : world) : world :=
  mk_world (w_fs w) (w_log w) (w_clock w + d) (w_child w).
Definition set_child (p : proc_state) (w : world) : world :=
  mk_world (w_fs w) (w_log w) (w_clock w) p.

(** ** A state-and-exception monad for Python code *)

Inductive result (A : Type) :=
| Ok (a : A)
| Raise (e : exn).
Arguments Ok {A} a.
Arguments Raise {A} e.

(** A computation over a state [S]: the helper and the supervisor run over
    the [world], the worker over the world and its own local variables. *)
Definition M (S A : Type) : Type := S → result A * S.

Definition ret {S A} (a : A) : M S A := λ s, (Ok a, s).
Definition raise {S A} (e : exn) : M S A := λ s, (Raise e, s).
Definition bind {S A B} (c : M S A) (k : A → M S B) : M S B :=
  λ s, match c s with
       | (Ok a, s') => k a s'
       | (Raise e, s') => (Raise e, s')
       end.

Notation "x <- c ;; k" := (bind c (λ x, k))
  (at level 100, c at next level, right associativity).
Notation "c ;;; k" := (bind c (λ _, k))
  (at level 100, right associativity).

(** [try: body / except <class>: handler]: the handler runs when the body
    raises an exception the clause matches; any other exception goes on up. *)
Definition try_except {S A} (body : M S A) (catches : exn → bool) (handler : exn → M S A) : M S A :=
  λ s, match body s with
       | (Ok a, s') => (Ok a, s')
       | (Raise e, s') => if catches e then handler e s' else (Raise e, s')
       end.

(** [try: body / finally: cleanup], for a cleanup that swallows its own
    errors. *)
Definition try_finally {S A} (body : M S A) (cleanup : S → S) : M S A :=
  λ s, let '(r, s') := body s in (r, cleanup s').

Definition modify {S} (f : S → S) : M S unit := λ s, (Ok tt, f s).

Definition emit (ev : event) : M world unit := modify (add_log ev).

(** An external call: logged, then it returns or raises as the environment
    says. *)
Definition call {A} (ev : event) (outcome : result A) : M world A :=
  λ w, (outcome, add_log ev w).

Definition outcome_of (o : option exn) : result unit :=
  match o with None => Ok tt | Some e => Raise e end.

(** * pyannote_mps_helper.py *)

(** What [hasattr(pipeline, '_segmentation')], [hasattr(pipeline._segmentation,
    'model')], [hasattr(seg_model, 'parameters')] and
    [next(iter(seg_model.parameters())).device] give. *)
Inductive probe :=
| ProbeAbsent                      (* one of the attributes is missing *)
| ProbeDevice (dev : string)       (* str(first_param.device) *)
| ProbeRaises (e : exn).           (* next(iter(...)) raised *)

(** One speaker turn of [diarization.itertracks(yield_label=True)]. *)
Record track := mk_track {
  turn_start : float;
  turn_end : float;
  label : string
}.

(** The pipeline object: the device it was last moved to and the embedding
    batch size set on it, if any. *)
Record pipeline := mk_pipeline {
  pl_device : device;
  pl_batch : option N
}.

(** How [subprocess.run([...ffmpeg...], check=True, capture_output=True)]
    ends. *)
Inductive ffmpeg_outcome :=
| FfmpegDone                       (* exit status 0 *)
| FfmpegExit (status : Z)          (* non-zero exit status: CalledProcessError *)
| FfmpegMissing.                   (* no ffmpeg executable: FileNotFoundError *)

Definition ffmpeg_result (o : ffmpeg_outcome) : result unit :=
  match o with
  | FfmpegDone => Ok tt
  | FfmpegExit _ =>
      Raise (mk_exn CalledProcessError "Command 'ffmpeg' returned non-zero exit status")
  | FfmpegMissing =>
      Raise (mk_exn OSError "[Errno 2] No such file or directory: 'ffmpeg'")
  end.

(** The answers of torch, pyannote, pathlib, ffmpeg and the clock, one field
    per call site. *)
Record env := mk_env {
  has_mps_backend : bool;          (* hasattr(torch.backends, 'mps') *)
  mps_is_available : bool;         (* torch.backends.mps.is_available() *)
  selftest_alloc : option exn;     (* torch.randn(10, 10).to('mps') *)
  selftest_mul : option exn;       (* test_tensor * 2 *)
  selftest_empty_cache : option exn;   (* torch.mps.empty_cache() in the self-test *)
  selftest_gc : option exn;        (* gc.collect() in the self-test *)
  from_pretrained : option exn;    (* Pipeline.from_pretrained *)
  has_batch_attr : bool;           (* hasattr(pipeline, 'embedding_batch_size') *)
  to_selected : option exn;        (* pipeline.to(device) in the helper *)
  seg_probe : probe;
  to_cpu_helper : option exn;      (* pipeline.to(cpu) in the helper's handler *)
  with_suffix : string → string → result string;
                                   (* Path(p).with_suffix(s); CPython's own is
                                      [pathlib_with_suffix] below *)
  ffmpeg : ffmpeg_outcome;         (* subprocess.run([...], check=True) *)
  infer_first : result (list track);   (* pipeline(converted_path), first call *)
  to_cpu_fallback : option exn;    (* pipeline.to(cpu) in the worker's handler *)
  infer_retry : result (list track);   (* pipeline(converted_path), second call *)
  time_start : float;              (* time.time() before inference *)
  time_end : float                 (* time.time() after inference *)
}.

Section Helper.
Variable E : env.

(** The body of the [try] in [get_safe_device]. *)
Definition mps_selftest : M world unit :=
  call EvTensorAlloc (outcome_of (selftest_alloc E)) ;;;
  call EvTensorMul (outcome_of (selftest_mul E)) ;;;
  emit EvTensorDel ;;;
  call EvMpsEmptyCache (outcome_of (selftest_empty_cache E)) ;;;
  call EvGcCollect (outcome_of (selftest_gc E)).

(** [get_safe_device(prefer_mps, fallback_to_cpu)].  [None] from the [if]
    block stands for falling out of it, to the final [return cpu]. *)
Definition get_safe_device (prefer_mps fallback_to_cpu : bool) : M world device :=
  returned <-
    (if prefer_mps && has_mps_backend E && mps_is_available E then
       try_except
         (mps_selftest ;;; ret (Some mps))
         is_Exception
         (λ e,
            emit (EvWarn (str_exn e)) ;;;
            if fallback_to_cpu then ret (Some cpu) else ret None)
     else ret None) ;;
  match returned with
  | Some d => ret d
  | None => ret cpu
  end.

(** [create_pyannote_pipeline_safe(prefer_mps=..., embedding_batch_size=...)];
    model name and token are passed on to [from_pretrained] unchanged. *)
Definition create_pyannote_pipeline_safe
    (prefer_mps : bool) (embedding_batch_size : option N) : M world pipeline :=
  dev <- get_safe_device prefer_mps true ;;
  call EvFromPretrained (outcome_of (from_pretrained E)) ;;;
  let p0 := mk_pipeline cpu None in
  p1 <-
    (if device_eqb dev mps then
       let bs := match embedding_batch_size with None => 16%N | Some b => b end in
       if has_batch_attr E
       then emit (EvSetBatch bs) ;;; ret (mk_pipeline (pl_device p0) (Some bs))
       else ret p0
     else ret p0) ;;
  try_except
    (call (EvPipelineTo dev) (outcome_of (to_selected E)) ;;;
     match seg_probe E with
     | ProbeRaises e => raise e
     | _ => ret tt
     end ;;;
     ret (mk_pipeline dev (pl_batch p1)))
    is_Exception
    (λ _,
       if device_eqb dev mps then
         call (EvPipelineTo cpu) (outcome_of (to_cpu_helper E)) ;;;
         ret (mk_pipeline cpu (pl_batch p1))
       else ret p1).

(** The cache clear [process_with_memory_management] issues for a device:
    MPS and CUDA have one, the CPU has none. *)
Definition clear_cache (dev : device) : M world unit :=
  match dev with
  | mps => emit EvMpsEmptyCache
  | cuda => emit EvCudaEmptyCache
  | cpu => ret tt
  end.

(** [process_with_memory_management(pipeline, audio_file, device)];
    [run] is what [pipeline(audio_file)] does when called.  The handler
    only prints and re-raises. *)
Definition process_with_memory_management
    (run : result (list track)) (p : pipeline) (audio_file : string) (dev : device)
    : M world (list track) :=
  clear_cache dev ;;;
  emit EvGcCollect ;;;
  try_except
    (r <- call (EvInfer (pl_device p) audio_file) run ;;
     clear_cache dev ;;;
     emit EvGcCollect ;;;
     ret r)
    is_RuntimeError
    (λ e, raise e).

End Helper.

(** * pyannote_isolated.py: the worker *)

(** ** Lexicographic order on labels, [set] and [sorted] *)

(** Python compares [str] values code point by code point; on UTF-8 text
    that is the byte-wise order of [String.compare]. *)
Definition str_le (a b : string) : Prop := String.leb a b = true.

#[global] Instance str_le_dec : RelDecision str_le.
Proof. intros a b. unfold str_le. apply _. Defined.

(** [set(...)] of labels, and [list(...)] of it in whatever order the set
    iterates. *)
Definition py_set (l : list string) : gset string := list_to_set l.
Definition py_list (s : gset string) : list string := elements s.
(** [sorted(...)] on labels. *)
Definition py_sorted (l : list string) : list string := merge_sort str_le l.

(** ** Segments and payloads *)

(** One element of [speaker_segments]. *)
Record segment := mk_segment {
  seg_start : float;
  seg_end : float;
  seg_speaker : string
}.

Definition json_of_segment (s : segment) : json :=
  JDict [("start", JFloat (seg_start s));
         ("end", JFloat (seg_end s));
         ("speaker", JStr (seg_speaker s))].

(** The [for turn, _, speaker in diarization.itertracks(yield_label=True)]
    loop. *)
Definition extract_segments (diarization : list track) : list segment :=
  map (λ t, mk_segment (turn_start t) (turn_end t) (label t)) diarization.

(** [sorted(list(set(seg['speaker'] for seg in speaker_segments)))] *)
Definition speakers_of (speaker_segments : list segment) : list string :=
  py_sorted (py_list (py_set (map seg_speaker speaker_segments))).

(** The dict literal of the primary path. *)
Definition success_result (speakers : list string) (speaker_segments : list segment)
    (device_str : string) (elapsed : float) : json :=
  JDict [("success", JBool true);
         ("speakers", JList (map JStr speakers));
         ("segments", JList (map json_of_segment speaker_segments));
         ("total_segments", JInt (Z.of_nat (length speaker_segments)));
         ("device_used", JStr device_str);
         ("processing_time", JFloat elapsed)].

(** The dict literal of the CPU fallback path. *)
Definition fallback_result (speakers : list string) (speaker_segments : list segment)
    (e : exn) : json :=
  JDict [("success", JBool true);
         ("speakers", JList (map JStr speakers));
         ("segments", JList (map json_of_segment speaker_segments));
         ("total_segments", JInt (Z.of_nat (length speaker_segments)));
         ("device_used", JStr "cpu");
         ("fallback_cpu", JBool true);
         ("error", JStr (str_exn e))].

(** The dict literal of the two failure paths. *)
Definition failure_result (msg : string) : json :=
  JDict [("success", JBool false); ("error", JStr msg)].

(** ** File operations *)

(** [with open(path, 'w') as f: json.dump(payload, f, indent=2)] *)
Definition write_json (path : string) (payload : json) : M world unit :=
  modify (λ w, add_log (EvWrite path payload) (set_fs (insert path (Doc payload)) w)).

(** [os.path.exists(path)] *)
Definition path_exists (path : string) : M world bool :=
  λ w, (Ok (bool_decide (is_Some (w_fs w !! path))), w).

(** [os.unlink(path)] on an existing file. *)
Definition unlink (path : string) : M world unit :=
  modify (λ w, add_log (EvUnlink path) (set_fs (delete path) w)).

(** [if os.path.exists(path): os.unlink(path)] *)
Definition unlink_if_exists (path : string) : M world unit :=
  there <- path_exists path ;;
  if there then unlink path else ret tt.

(** ** The worker's frame *)

(** The world, and the two local variables the [except] clause of
    [diarize_isolated] reads: each is unbound until its assignment ran. *)
Record wstate := mk_wstate {
  ws_world : world;
  ws_pipeline : option pipeline;
  ws_converted : option string
}.

Definition lift {A} (c : M world A) : M wstate A :=
  λ s, let '(r, w') := c (ws_world s) in
       (r, mk_wstate w' (ws_pipeline s) (ws_converted s)).

Definition assign_pipeline (p : pipeline) : M wstate unit :=
  modify (λ s, mk_wstate (ws_world s) (Some p) (ws_converted s)).
Definition assign_converted (path : string) : M wstate unit :=
  modify (λ s, mk_wstate (ws_world s) (ws_pipeline s) (Some path)).

Definition unbound (name : string) : exn :=
  mk_exn UnboundLocalError
    ("local variable '" +:+ name +:+ "' referenced before assignment").

(** Reading a local variable: [UnboundLocalError] when it was never
    assigned. *)
Definition read_pipeline : M wstate pipeline :=
  λ s, match ws_pipeline s with
       | Some p => (Ok p, s)
       | None => (Raise (unbound "pipeline"), s)
       end.
Definition read_converted : M wstate string :=
  λ s, match ws_converted s with
       | Some p => (Ok p, s)
       | None => (Raise (unbound "converted_path"), s)
       end.

Section Worker.
Variable PYANNOTE_AVAILABLE : bool.
Variable E : env.

(** The outer [try] of [diarize_isolated], up to the conversion: it
    yields [pipeline], [device], [device_str] and [converted_path]. *)
Definition diarize_setup (audio_file_path : string) (use_mps : bool) (batch_size : N)
    : M wstate (pipeline * device * string * string) :=
  p <- lift (create_pyannote_pipeline_safe E use_mps (Some batch_size)) ;;
  assign_pipeline p ;;;
  (* device = mps if use_mps and torch.backends.mps.is_available() else cpu *)
  available <-
    (if use_mps then
       if has_mps_backend E then ret (mps_is_available E)
       else raise (mk_exn AttributeError "module 'torch.backends' has no attribute 'mps'")
     else ret false) ;;
  let dev := if use_mps && available then mps else cpu in
  let device_str :=
    match seg_probe E with
    | ProbeDevice d => d
    | _ => str_device dev
    end in
  converted_path <- lift (λ w, (with_suffix E audio_file_path "_16k.wav", w)) ;;
  assign_converted converted_path ;;;
  lift (call (EvFfmpeg audio_file_path converted_path) (ffmpeg_result (ffmpeg E))) ;;;
  lift (modify (set_fs (insert converted_path (Raw "RIFF")))) ;;;
  ret (p, dev, device_str, converted_path).

(** The rest of the outer [try]: inference, extraction, the success
    payload, cleanup. *)
Definition diarize_infer (output_json_path : string)
    (p : pipeline) (dev : device) (device_str converted_path : string)
    : M wstate (option json) :=
  diarization <-
    lift (process_with_memory_management (infer_first E) p converted_path dev) ;;
  let elapsed := PrimFloat.sub (time_end E) (time_start E) in
  let speaker_segments := extract_segments diarization in
  let speakers := speakers_of speaker_segments in
  let result := success_result speakers speaker_segments device_str elapsed in
  lift (write_json output_json_path result) ;;;
  lift (unlink_if_exists converted_path) ;;;
  lift (if device_eqb dev mps then emit EvMpsEmptyCache else ret tt) ;;;
  lift (emit EvGcCollect) ;;;
  ret (Some result).

(** The body of the outer [try] of [diarize_isolated]. *)
Definition diarize_body (audio_file_path output_json_path : string)
    (use_mps : bool) (batch_size : N) : M wstate (option json) :=
  locals <- diarize_setup audio_file_path use_mps batch_size ;;
  let '(p, dev, device_str, converted_path) := locals in
  diarize_infer output_json_path p dev device_str converted_path.

(** The inner [try] of the handler: the retry on the CPU. *)
Definition cpu_fallback (output_json_path : string) (e : exn) : M wstate (option json) :=
  p <- read_pipeline ;;
  lift (call (EvPipelineTo cpu) (outcome_of (to_cpu_fallback E))) ;;;
  assign_pipeline (mk_pipeline cpu (pl_batch p)) ;;;   (* the object moved *)
  converted_path <- read_converted ;;
  diarization <- lift (call (EvInfer cpu converted_path) (infer_retry E)) ;;
  let speaker_segments := extract_segments diarization in
  let speakers := speakers_of speaker_segments in
  let result := fallback_result speakers speaker_segments e in
  lift (write_json output_json_path result) ;;;
  lift (unlink_if_exists converted_path) ;;;
  ret (Some result).

(** The [except RuntimeError as e] clause.  [inl] is the [return result]
    of the retry, [inr] the value of [error] on the way to the failure
    payload. *)
Definition diarize_handler (output_json_path : string) (e : exn) : M wstate (option json) :=
  outcome <-
    (if is_memory_error e then
       try_except
         (r <- cpu_fallback output_json_path e ;; ret (inl r))
         is_Exception
         (λ fallback_error, ret (inr fallback_error))
     else ret (inr e)) ;;
  match outcome with
  | inl r => ret r
  | inr error =>
      lift (write_json output_json_path (failure_result (str_exn error))) ;;;
      ret None
  end.

(** [diarize_isolated(audio_file_path, output_json_path, use_mps, batch_size)] *)
Definition diarize_isolated (audio_file_path output_json_path : string)
    (use_mps : bool) (batch_size : N) : M wstate (option json) :=
  if negb PYANNOTE_AVAILABLE then
    lift (write_json output_json_path (failure_result "pyannote_mps_helper non disponible")) ;;;
    ret None
  else
    try_except
      (diarize_body audio_file_path output_json_path use_mps batch_size)
      is_RuntimeError
      (diarize_handler output_json_path).

End Worker.

(** * pyannote_isolated.py: the supervisor *)

(** What the child process does, as far as the parent can observe it. *)
Record child := mk_child {
  start_raises : option exn;       (* process.start() failing *)
  run_time : option N;             (* seconds from start to its own exit; None: never *)
  exit_code : Z;                   (* the code of that exit *)
  child_fs : gmap string content → gmap string content;
                                   (* what it has done to the file system *)
  term_delay : option N;           (* seconds from SIGTERM to exit; None: no exit *)
  kill_delay : N                   (* seconds from SIGKILL to exit *)
}.

(** [process.start()] *)
Definition start (C : child) : M world unit :=
  λ w, match start_raises C with
       | Some e => (Raise e, add_log EvStart w)
       | None =>
           (Ok tt,
            add_log EvStart
              (set_child (Alive (run_time C) (exit_code C)) (set_fs (child_fs C) w)))
       end.

(** [process.join(timeout=t)]: blocks until the child exits, [t] seconds at
    most. *)
Definition join (t : N) : M world unit :=
  modify (λ w,
    add_log (EvJoin t)
      match w_child w with
      | Alive (Some d) code =>
          if (d <=? t)%N then set_child (Exited code) (add_clock d w)
          else set_child (Alive (Some (d - t)%N) code) (add_clock t w)
      | Alive None _ => add_clock t w
      | _ => w
      end).

(** [process.is_alive()] *)
Definition is_alive : M world bool :=
  λ w, (Ok match w_child w with Alive _ _ => true | _ => false end, w).

(** [process.terminate()] *)
Definition terminate (C : child) : M world unit :=
  modify (λ w,
    add_log EvTerminate
      match w_child w with
      | Alive _ _ => set_child (Alive (term_delay C) (-15)) w
      | _ => w
      end).

(** [process.kill()] *)
Definition kill (C : child) : M world unit :=
  modify (λ w,
    add_log EvKill
      match w_child w with
      | Alive _ _ => set_child (Alive (Some (kill_delay C)) (-9)) w
      | _ => w
      end).

(** [tempfile.NamedTemporaryFile(mode='w', suffix='.json', delete=False)],
    [.name], [.close()]: an empty file under a name of the system's choice. *)
Definition mktemp (name : string) : M world string :=
  λ w, (Ok name, add_log (EvMkTemp name) (set_fs (insert name (Raw "")) w)).

(** [with open(path, 'r') as f: json.load(f)] *)
Definition json_load (path : string) : M world json :=
  λ w, (match w_fs w !! path with
        | Some (Doc v) => Ok v
        | Some (Raw _) => Raise (mk_exn JSONDecodeError "Expecting value")
        | None => Raise (mk_exn OSError "No such file or directory")
        end, add_log (EvRead path) w).

(** [result.get(key)]: [None] for a missing key, [AttributeError] when the
    document is not an object. *)
Definition py_get (v : json) (key : string) : M world json :=
  match v with
  | JDict kvs => ret (default JNull (dict_get key kvs))
  | _ => raise (mk_exn AttributeError "object has no attribute 'get'")
  end.

Section Supervisor.
Variable PYANNOTE_AVAILABLE : bool.
Variable tmp_name : string.
Variable C : child.

(** The [if process.is_alive():] branch. *)
Definition reclaim (output_path : string) : M world (option json) :=
  terminate C ;;;
  join 5 ;;;
  still <- is_alive ;;
  (if still then kill C ;;; join 2 else ret tt) ;;;
  unlink_if_exists output_path ;;;
  ret None.

(** Reading the results once the child has exited. *)
Definition collect (output_path : string) : M world (option json) :=
  there <- path_exists output_path ;;
  if there then
    try_except
      (result <- json_load output_path ;;
       success <- py_get result "success" ;;
       if truthy success then ret (Some result) else ret None)
      is_JSONDecodeError
      (λ _, ret None)
  else ret None.

(** The body of the [try] of [run_diarization_isolated]. *)
Definition supervise (output_path : string) (timeout : N) : M world (option json) :=
  start C ;;;
  join timeout ;;;
  alive <- is_alive ;;
  if alive then reclaim output_path else collect output_path.

(** The [finally] clause. *)
Definition cleanup (output_path : string) (w : world) : world :=
  (unlink_if_exists output_path w).2.

(** [run_diarization_isolated(audio_file_path, use_mps, batch_size, timeout)].
    The arguments handed on to the child are part of [C]. *)
Definition run_diarization_isolated (timeout : N) : M world (option json) :=
  if negb PYANNOTE_AVAILABLE then ret None
  else
    output_path <- mktemp tmp_name ;;
    try_finally
      (try_except (supervise output_path timeout) is_Exception (λ _, ret None))
      (cleanup output_path).

End Supervisor.

(** Module load: [PYANNOTE_AVAILABLE] is [True] when the two imports
    succeed and [False] when one raises [ImportError]; any other exception
    aborts the import of the module itself. *)
Definition module_PYANNOTE_AVAILABLE (imports : option exn) : result bool :=
  match imports with
  | None => Ok true
  | Some e => if is_ImportError e then Ok false else Raise e
  end.

(** The worker run as the child of an invocation: it exits by itself after
    [d] seconds, with code 0 when [diarize_isolated] returns and code 1 when
    an exception escapes it. *)
Definition worker_run (avail : bool) (E : env) (audio out : string)
    (use_mps : bool) (batch : N) (fs : gmap string content) : result (option json) * wstate :=
  diarize_isolated avail E audio out use_mps batch
    (mk_wstate (mk_world fs [] 0 NotStarted) None None).

Definition worker_child (avail : bool) (E : env) (audio out : string)
    (use_mps : bool) (batch : N) (d : N) : child :=
  mk_child None (Some d)
    (match (worker_run avail E audio out use_mps batch ∅).1 with
     | Ok _ => 0
     | Raise _ => 1
     end)
    (λ fs, w_fs (ws_world (worker_run avail E audio out use_mps batch fs).2))
    (Some 0%N) 0%N.

(** * What the specification says, and reference behaviour of libraries *)

(** The Job Outcome of the specification's data model. *)
Inductive JobOutcome :=
| Success (payload : json)
| Failure (reason : string)
| Timeout
| CrashedOrUnknown.

(** The [error] string of a failure artifact. *)
Definition reason_of (kvs : list (string * json)) : string :=
  match dict_get "error" kvs with
  | Some (JStr s) => s
  | _ => ""
  end.

(** Whether the child exits by itself within the deadline. *)
Definition exits_in_time (C : child) (timeout : N) : bool :=
  match start_raises C, run_time C with
  | None, Some d => (d <=? timeout)%N
  | _, _ => false
  end.

(** The artifact as the parent finds it: created empty, then whatever the
    child did. *)
Definition artifact_after (C : child) (tmp : string) (fs : gmap string content) : option content :=
  match start_raises C with
  | None => child_fs C (<[tmp := Raw ""]> fs) !! tmp
  | Some _ => Some (Raw "")
  end.

(** The outcome mapping in the specification's words: deadline exceeded
    gives [Timeout]; a missing or malformed artifact [CrashedOrUnknown]; a
    valid artifact with [success=false] gives [Failure] with its reason, and
    one with [success=true] gives [Success]. *)
Definition spec_outcome (C : child) (tmp : string) (timeout : N)
    (fs : gmap string content) : JobOutcome :=
  match start_raises C with
  | Some _ => CrashedOrUnknown
  | None =>
      if exits_in_time C timeout then
        match artifact_after C tmp fs with
        | Some (Doc (JDict kvs)) =>
            if truthy (default JNull (dict_get "success" kvs))
            then Success (JDict kvs)
            else Failure (reason_of kvs)
        | _ => CrashedOrUnknown
        end
      else Timeout
  end.

(** Whether the child exits within the five seconds after SIGTERM. *)
Definition term_in_grace (C : child) : bool :=
  match term_delay C with
  | Some t => (t <=? 5)%N
  | None => false
  end.

(** What the caller of [run_diarization_isolated] receives for an outcome:
    the dict, or [None]. *)
Definition returned_for (o : JobOutcome) : option json :=
  match o with
  | Success payload => Some payload
  | _ => None
  end.

(** [PurePath.with_suffix] as CPython defines it: a suffix that contains a
    separator, that is non-empty without a leading dot, or that is a lone
    dot, is rejected with [ValueError]; otherwise the suffix of the last
    component (from its last dot, unless that dot leads or ends the name) is
    replaced. *)
Fixpoint drop_old_suffix (rev_name : list ascii) (seen : list ascii) : option (list ascii) :=
  match rev_name with
  | [] => None
  | c :: rest =>
      if Ascii.eqb c "/" then None
      else if Ascii.eqb c "." then
        match rest, seen with
        | [], _ => None
        | d :: _, [] => None
        | d :: _, _ => if Ascii.eqb d "/" then None else Some rest
        end
      else drop_old_suffix rest (c :: seen)
  end.

Definition pathlib_with_suffix (path suffix : string) : result string :=
  if contains "/" suffix
     || (negb (String.eqb suffix "") && negb (String.prefix "." suffix))
     || String.eqb suffix "."
  then Raise (mk_exn ValueError ("Invalid suffix '" +:+ suffix +:+ "'"))
  else
    let chars := rev (list_ascii_of_string path) in
    match drop_old_suffix chars [] with
    | Some stem => Ok (string_of_list_ascii (rev stem) +:+ suffix)
    | None => Ok (path +:+ suffix)
    end.

(** ** Reading the action log *)

Definition is_write (ev : event) : bool :=
  match ev with EvWrite _ _ => true | _ => false end.
Definition is_infer (ev : event) : bool :=
  match ev with EvInfer _ _ => true | _ => false end.

(** The payloads written, in order. *)
Fixpoint written (log : list event) : list json :=
  match log with
  | [] => []
  | EvWrite _ payload :: rest => payload :: written rest
  | _ :: rest => written rest
  end.

(** The inference calls made, in order. *)
Fixpoint inferences (log : list event) : list (device * string) :=
  match log with
  | [] => []
  | EvInfer d a :: rest => (d, a) :: inferences rest
  | _ :: rest => inferences rest
  end.

(** The events of [clear_cache]. *)
Definition cache_events (dev : device) : list event :=
  match dev with
  | mps => [EvMpsEmptyCache]
  | cuda => [EvCudaEmptyCache]
  | cpu => []
  end.

(** The self-test passes when none of its steps raises. *)
Definition selftest_passes (E : env) : bool :=
  match selftest_alloc E, selftest_mul E, selftest_empty_cache E, selftest_gc E with
  | None, None, None, None => true
  | _, _, _, _ => false
  end.

(** How often the self-test was started. *)
Definition count_selftests (log : list event) : nat :=
  length (List.filter (λ ev, match ev with EvTensorAlloc => true | _ => false end) log).

(** A cache clear and a collection directly after the inference call. *)
Definition cleaned_after_call (dev : device) (log : list event) : Prop :=
  ∃ before d audio after,
    log = before ++ [EvInfer d audio] ++ cache_events dev ++ [EvGcCollect] ++ after.

(** ** Which events a computation adds *)

Class Logged (S : Type) := log_of : S → list event.
#[global] Instance world_logged : Logged world := w_log.
#[global] Instance wstate_logged : Logged wstate := λ s, w_log (ws_world s).

(** [c] only appends to the log, and every event it appends satisfies [Q]. *)
Definition only_adds {S} `{Logged S} {A} (Q : event → Prop) (c : M S A) : Prop :=
  ∀ s, ∃ new, log_of (c s).2 = log_of s ++ new ∧ Forall Q new.

(** Neither an inference call nor a write of a payload. *)
Definition quiet (ev : event) : Prop :=
  is_infer ev = false ∧ is_write ev = false.

(** Every payload written satisfies [P]. *)
Definition writes_only (P : json → Prop) (ev : event) : Prop :=
  match ev with
  | EvWrite _ payload => P payload
  | _ => True
  end.

(** ** Properties of payloads *)

(** The three dict literals of [diarize_isolated]. *)
Definition worker_payload (payload : json) : Prop :=
  (∃ segments device_str elapsed,
     payload = success_result (speakers_of segments) segments device_str elapsed) ∨
  (∃ segments e,
     payload = fallback_result (speakers_of segments) segments e) ∨
  (∃ msg, payload = failure_result msg).

Definition has_key (k : string) (payload : json) : Prop :=
  match payload with
  | JDict kvs => is_Some (dict_get k kvs)
  | _ => False
  end.

Definition field (k : string) (payload : json) : option json :=
  match payload with
  | JDict kvs => dict_get k kvs
  | _ => None
  end.

Definition keys_of (payload : json) : list string :=
  match payload with
  | JDict kvs => dict_keys kvs
  | _ => []
  end.

(** [speakers] is the deduplicated, sorted list of the labels of
    [segments]. *)
Definition sorted_unique_labels (speakers : list string) (segments : list segment) : Prop :=
  StronglySorted str_le speakers ∧ NoDup speakers ∧
  ∀ x, x ∈ speakers ↔ ∃ s, s ∈ segments ∧ seg_speaker s = x.

(** What C7 asks of a success payload. *)
Definition consistent_success (payload : json) : Prop :=
  ∃ speakers segments,
    field "segments" payload = Some (JList (map json_of_segment segments)) ∧
    field "total_segments" payload = Some (JInt (Z.of_nat (length segments))) ∧
    field "speakers" payload = Some (JList (map JStr speakers)) ∧
    sorted_unique_labels speakers segments.

Definition primary_keys : list string :=
  ["success"; "speakers"; "segments"; "total_segments"; "device_used"; "processing_time"].
Definition fallback_keys : list string :=
  ["success"; "speakers"; "segments"; "total_segments"; "device_used"; "fallback_cpu"; "error"].
Definition failure_keys : list string := ["success"; "error"].

(** ** Environments and children used as examples *)

Definition example_tracks : list track :=
  [mk_track 0%float 1.5%float "SPEAKER_01";
   mk_track 1.5%float 3%float "SPEAKER_00";
   mk_track 3%float 4.25%float "SPEAKER_01"].

(** Everything works, on MPS. *)
Definition env_ok : env :=
  mk_env true true None None None None None true None (ProbeDevice "mps:0") None
    (λ p s, Ok (p +:+ s)) FfmpegDone (Ok example_tracks) None (Ok example_tracks)
    10%float 12.5%float.

Definition with_infer_first (r : result (list track)) (E : env) : env :=
  mk_env (has_mps_backend E) (mps_is_available E) (selftest_alloc E) (selftest_mul E)
    (selftest_empty_cache E) (selftest_gc E) (from_pretrained E) (has_batch_attr E)
    (to_selected E) (seg_probe E) (to_cpu_helper E) (with_suffix E) (ffmpeg E)
    r (to_cpu_fallback E) (infer_retry E) (time_start E) (time_end E).

Definition with_infer_retry (r : result (list track)) (E : env) : env :=
  mk_env (has_mps_backend E) (mps_is_available E) (selftest_alloc E) (selftest_mul E)
    (selftest_empty_cache E) (selftest_gc E) (from_pretrained E) (has_batch_attr E)
    (to_selected E) (seg_probe E) (to_cpu_helper E) (with_suffix E) (ffmpeg E)
    (infer_first E) (to_cpu_fallback E) r (time_start E) (time_end E).

Definition with_ffmpeg (o : ffmpeg_outcome) (E : env) : env :=
  mk_env (has_mps_backend E) (mps_is_available E) (selftest_alloc E) (selftest_mul E)
    (selftest_empty_cache E) (selftest_gc E) (from_pretrained E) (has_batch_attr E)
    (to_selected E) (seg_probe E) (to_cpu_helper E) (with_suffix E) o
    (infer_first E) (to_cpu_fallback E) (infer_retry E) (time_start E) (time_end E).

Definition with_pathlib (E : env) : env :=
  mk_env (has_mps_backend E) (mps_is_available E) (selftest_alloc E) (selftest_mul E)
    (selftest_empty_cache E) (selftest_gc E) (from_pretrained E) (has_batch_attr E)
    (to_selected E) (seg_probe E) (to_cpu_helper E) pathlib_with_suffix (ffmpeg E)
    (infer_first E) (to_cpu_fallback E) (infer_retry E) (time_start E) (time_end E).

Definition with_from_pretrained (o : option exn) (E : env) : env :=
  mk_env (has_mps_backend E) (mps_is_available E) (selftest_alloc E) (selftest_mul E)
    (selftest_empty_cache E) (selftest_gc E) o (has_batch_attr E)
    (to_selected E) (seg_probe E) (to_cpu_helper E) (with_suffix E) (ffmpeg E)
    (infer_first E) (to_cpu_fallback E) (infer_retry E) (time_start E) (time_end E).

(** The accelerator runs out of memory on the first inference. *)
Definition mps_oom : exn := mk_exn RuntimeError "MPS backend out of memory".
Definition env_oom : env := with_infer_first (Raise mps_oom) env_ok.

(** The host runs out of memory: an [OSError], not a [RuntimeError]. *)
Definition host_oom : exn := mk_exn OSError "[Errno 12] Cannot allocate memory".
Definition env_host_oom : env := with_infer_first (Raise host_oom) env_ok.

(** The transcoder exits with status 1. *)
Definition env_ffmpeg_fails : env := with_ffmpeg (FfmpegExit 1) env_ok.

(** The model cannot be downloaded. *)
Definition env_no_model : env :=
  with_from_pretrained (Some (mk_exn OSError "We couldn't connect to 'https://huggingface.co'")) env_ok.

Definition fresh_world : world := mk_world ∅ [] 0 NotStarted.
Definition fresh_wstate : wstate := mk_wstate fresh_world None None.

(** A child that never exits by itself and ignores SIGTERM; SIGKILL takes
    [k] seconds to take effect. *)
Definition hung_child (k : N) : child := mk_child None None 0 id None k.

(** A child that the system kills after a second, before it wrote anything. *)
Definition crashed_child : child := mk_child None (Some 1%N) (-9) id (Some 0%N) 0.

(** A child that exits after [d] seconds having written [payload] to [out]. *)
Definition writing_child (out : string) (payload : json) (d : N) : child :=
  mk_child None (Some d) 0 (insert out (Doc payload)) (Some 0%N) 0.

(** ** More ways to read the log, and variations of a child *)

Definition is_read_of (path : string) (ev : event) : bool :=
  match ev with EvRead p => String.eqb p path | _ => false end.
Definition is_unlink_of (path : string) (ev : event) : bool :=
  match ev with EvUnlink p => String.eqb p path | _ => false end.
Definition is_signal (ev : event) : bool :=
  match ev with EvTerminate | EvKill => true | _ => false end.

(** How many events of a kind the log holds. *)
Definition count_events (kind : event → bool) (log : list event) : nat :=
  length (List.filter kind log).

(** The same child leaving another exit code. *)
Definition with_exit_code (code : Z) (C : child) : child :=
  mk_child (start_raises C) (run_time C) code (child_fs C) (term_delay C) (kill_delay C).

(** ** Computations that leave the files alone *)

Definition keeps_fs {A} (c : M world A) : Prop :=
  ∀ w, w_fs (c w).2 = w_fs w.

(** The device [get_safe_device] settles on. *)
Definition selected_device (E : env) (prefer_mps : bool) : device :=
  if prefer_mps && has_mps_backend E && mps_is_available E && selftest_passes E
  then mps else cpu.

(** Whether the move to the selected device and the check after it go
    through. *)
Definition move_succeeds (E : env) : bool :=
  match to_selected E, seg_probe E with
  | None, ProbeRaises _ => false
  | None, _ => true
  | Some _, _ => false
  end.

(** A payload written on one of the two success paths. *)
Definition success_payload (payload : json) : Prop :=
  (∃ segments device_str elapsed,
     payload = success_result (speakers_of segments) segments device_str elapsed) ∨
  (∃ segments e,
     payload = fallback_result (speakers_of segments) segments e).

(** The value of [device] in [diarize_isolated]: it follows the request
    and the availability report, not the self-test. *)
Definition worker_device (E : env) (use_mps : bool) : device :=
  if use_mps && mps_is_available E then mps else cpu.

(** The first value of [device_str]: the device of the first model
    parameter when it can be read, else [str(device)]. *)
Definition worker_device_str (E : env) (use_mps : bool) : string :=
  match seg_probe E with
  | ProbeDevice d => d
  | _ => str_device (worker_device E use_mps)
  end.

Definition no_mps_attribute : exn :=
  mk_exn AttributeError "module 'torch.backends' has no attribute 'mps'".

(** * app.py *)

(** ** [allowed_file] *)

(** [app.config['ALLOWED_EXTENSIONS']] *)
Definition ALLOWED_EXTENSIONS : list string :=
  ["wav"; "mp3"; "m4a"; "flac"; "aac"; "ogg"].

(** [s.rsplit('.', 1)]: the text before and after the last dot, or [s]
    alone when it has no dot. *)
Fixpoint rsplit_dot (s : string) : list string :=
  match s with
  | EmptyString => [EmptyString]
  | String c rest =>
      match rsplit_dot rest with
      | [before; after] => [String c before; after]
      | _ => if Ascii.eqb c "." then [EmptyString; rest] else [String c rest]
      end
  end.

(** [x in app.config['ALLOWED_EXTENSIONS']] *)
Definition in_allowed (ext : string) : bool :=
  existsb (String.eqb ext) ALLOWED_EXTENSIONS.

(** [allowed_file(filename)].  The index [[1]] is only evaluated when the
    name has a dot, and the split then has two parts.  [lower] maps the
    ASCII letters; the letters outside ASCII that Python's [str.lower]
    changes do not lead into [ALLOWED_EXTENSIONS]. *)
Definition allowed_file (filename : string) : bool :=
  contains "." filename &&
  match rsplit_dot filename with
  | [_; ext] => in_allowed (lower ext)
  | _ => false
  end.

(** ** The [/api/v1/diarize] endpoint *)

(** The parts of the request the endpoint reads. *)
Record http_request := mk_request {
  req_audio : option string;       (* request.files['audio'].filename, if the part is there *)
  req_use_mps : option string;     (* request.form.get('use_mps') *)
  req_batch_size : option string;  (* request.form.get('batch_size') *)
  req_timeout : option string      (* request.form.get('timeout') *)
}.

(** What the endpoint gets from Python, werkzeug, the system and the child. *)
Record app_env := mk_app_env {
  py_int : string → option Z;      (* int(s); None: ValueError *)
  secure_filename : string → string;   (* werkzeug.utils.secure_filename *)
  temp_dir : string;               (* tempfile.gettempdir() *)
  upload_random : string;          (* the random part of the upload's temporary name *)
  save_raises : option exn;        (* audio_file.save(tmp.name) *)
  allowed_listing : string;        (* ", ".join(ALLOWED_EXTENSIONS), in set order *)
  request_start : float;           (* time.time() on entry *)
  request_end : float;             (* time.time() when the response is built *)
  result_name : string;            (* the name of the supervisor's temporary file *)
  child_for : string → bool → Z → child
                                   (* the child started for (path, use_mps, batch_size) *)
}.

(** [NamedTemporaryFile(delete=False, suffix=s).name]: directory, the
    prefix "tmp", random characters, suffix. *)
Definition upload_name (A : app_env) (suffix : string) : string :=
  temp_dir A +:+ "/tmp" +:+ upload_random A +:+ suffix.

Definition dquote : string := String "034" EmptyString.

(** [int(s)] *)
Definition int_of (A : app_env) (s : string) : M world Z :=
  match py_int A s with
  | Some n => ret n
  | None =>
      raise (mk_exn ValueError ("invalid literal for int() with base 10: '" +:+ s +:+ "'"))
  end.

(** [except ValueError] *)
Definition is_ValueError (e : exn) : bool := exn_class_eqb (exn_cls e) ValueError.

(** [jsonify({'success': False, 'error': msg}), 400] *)
Definition bad_request (msg : string) : json * Z :=
  (JDict [("success", JBool false); ("error", JStr msg)], 400%Z).

(** [jsonify({'success': False, 'error': error, 'request_time': elapsed}), 500] *)
Definition server_error (error : json) (elapsed : float) : json * Z :=
  (JDict [("success", JBool false); ("error", error); ("request_time", JFloat elapsed)],
   500%Z).

(** [result.get(key, default)] on a dict. *)
Definition get_or (key : string) (dflt : json) (kvs : list (string * json)) : json :=
  default dflt (dict_get key kvs).

(** The response of the success branch. *)
Definition success_response (kvs : list (string * json)) (elapsed : float) : json * Z :=
  (JDict
     ([("success", JBool true);
       ("request_time", JFloat elapsed);
       ("processing_time", get_or "processing_time" (JInt 0) kvs);
       ("speakers", get_or "speakers" (JList []) kvs);
       ("segments", get_or "segments" (JList []) kvs);
       ("total_segments", get_or "total_segments" (JInt 0) kvs);
       ("device_used", get_or "device_used" (JStr "unknown") kvs);
       ("fallback_cpu", get_or "fallback_cpu" (JBool false) kvs)] ++
      (if truthy (get_or "fallback_cpu" JNull kvs)
       then [("warning", JStr "OOM sur MPS, traité sur CPU")] else [])),
   200%Z).

Section Endpoint.
Variable PYANNOTE_AVAILABLE : bool.
Variable A : app_env.

Definition elapsed_time : float := PrimFloat.sub (request_end A) (request_start A).

(** From [result = run_diarization_isolated(...)] to the [return] of the
    inner [try].  [timeout] is any integer the form gave; a [join] with a
    timeout of zero or less does not block, hence [Z.to_N]. *)
Definition diarize_respond (temp_path : string) (use_mps : bool) (batch_size timeout : Z)
    : M world (json * Z) :=
  result <-
    run_diarization_isolated PYANNOTE_AVAILABLE (result_name A)
      (child_for A temp_path use_mps batch_size) (Z.to_N timeout) ;;
  match result with
  | None => ret (server_error (JStr "Timeout ou erreur inconnue") elapsed_time)
  | Some doc =>
      if negb (truthy doc)
      then ret (server_error (JStr "Timeout ou erreur inconnue") elapsed_time)
      else
        success <- py_get doc "success" ;;
        let kvs := match doc with JDict kvs => kvs | _ => [] end in
        if truthy success
        then ret (success_response kvs elapsed_time)
        else ret (server_error (get_or "error" (JStr "Erreur inconnue") kvs) elapsed_time)
  end.

(** The [finally] clause:
    [if temp_path and os.path.exists(temp_path): os.unlink(temp_path)]. *)
Definition remove_upload (temp_path : string) (w : world) : world :=
  if String.eqb temp_path "" then w else cleanup temp_path w.

(** The body of the outer [try] of [diarize].  The [finally] clause removes
    the upload only once [temp_path] is assigned, which is after the save:
    until then it does nothing. *)
Definition diarize_body_app (req : http_request) : M world (json * Z) :=
  match req_audio req with
  | None =>
      ret (bad_request
             ("Fichier audio manquant. Utilisez le champ " +:+ dquote +:+ "audio" +:+
              dquote +:+ " dans form-data."))
  | Some filename =>
      if String.eqb filename "" then ret (bad_request "Nom de fichier vide")
      else
        if negb (allowed_file filename) then
          ret (bad_request
                 ("Extension non autorisée. Extensions autorisées: " +:+ allowed_listing A))
        else
          let use_mps := String.eqb (lower (default "true" (req_use_mps req))) "true" in
          batch_size <- int_of A (default "16" (req_batch_size req)) ;;
          timeout <- int_of A (default "600" (req_timeout req)) ;;
          let filename := secure_filename A filename in
          temp_path <- mktemp (upload_name A ("_" +:+ filename)) ;;
          (λ w, (outcome_of (save_raises A), w)) ;;;
          modify (set_fs (insert temp_path (Raw "audio"))) ;;;
          try_finally
            (diarize_respond temp_path use_mps batch_size timeout)
            (remove_upload temp_path)
  end.

(** [diarize()]: the body under its two [except] clauses. *)
Definition diarize : http_request → M world (json * Z) :=
  λ req,
    try_except (diarize_body_app req) is_Exception
      (λ e,
         if is_ValueError e
         then ret (bad_request ("Erreur de paramètre: " +:+ str_exn e))
         else ret (server_error (JStr (str_exn e)) elapsed_time)).

End Endpoint.

(** ** Reading a request *)

(** The request passes the three checks on the upload and its two numbers
    parse. *)
Definition request_accepted (A : app_env) (req : http_request) : bool :=
  match req_audio req with
  | None => false
  | Some filename =>
      negb (String.eqb filename "") && allowed_file filename &&
      bool_decide (is_Some (py_int A (default "16" (req_batch_size req)))) &&
      bool_decide (is_Some (py_int A (default "600" (req_timeout req))))
  end.

(** The path the upload is saved under. *)
Definition upload_path (A : app_env) (req : http_request) : string :=
  upload_name A ("_" +:+ secure_filename A (default "" (req_audio req))).

(** The arguments the endpoint hands to the supervisor. *)
Definition requested_mps (req : http_request) : bool :=
  String.eqb (lower (default "true" (req_use_mps req))) "true".
Definition requested_batch (A : app_env) (req : http_request) : Z :=
  default 0%Z (py_int A (default "16" (req_batch_size req))).
Definition requested_timeout (A : app_env) (req : http_request) : Z :=
  default 0%Z (py_int A (default "600" (req_timeout req))).

(** The world once the upload is saved. *)
Definition after_upload (A : app_env) (req : http_request) (w : world) : world :=
  mk_world (<[upload_path A req := Raw "audio"]> (<[upload_path A req := Raw ""]> (w_fs w)))
    (w_log w ++ [EvMkTemp (upload_path A req)]) (w_clock w) (w_child w).

(** A form-free request for a file name, and an environment for examples:
    [int] on the two defaults, a child that writes a given payload. *)
Definition request_for (filename : string) : http_request :=
  mk_request (Some filename) None None None.

Definition example_app (C : child) : app_env :=
  mk_app_env
    (λ s, if String.eqb s "16" then Some 16%Z
          else if String.eqb s "600" then Some 600%Z else None)
    (λ s, s) "/tmp" "a1b2c3" None "wav, mp3, m4a, flac, aac, ogg"
    100%float 103.5%float "/tmp/tmpk3v9.json" (λ _ _ _, C).

(** * Proofs *)

(** ** Running the monad *)

Lemma try_except_caught {S A} (body : M S A) catches handler s e s' :
  body s = (Raise e, s') → catches e = true →
  try_except body catches handler s = handler e s'.
Proof. intros H Hc. unfold try_except. by rewrite H, Hc. Qed.

(** Unfolds the primitives of the monad and of the world. *)
Ltac unfold_m :=
  unfold bind, ret, raise, try_except, try_finally, emit, call, modify, lift,
    outcome_of, add_log, set_fs, add_clock, set_child in *.

(** ** The memory test *)

(** The first disjunct of the memory test is redundant: a description that
    contains "out of memory" contains "memory". *)
Lemma contains_suffix needle hay c :
  contains needle hay = true → contains needle (String c hay) = true.
Proof. intros H. simpl. rewrite H. apply orb_true_r. Qed.

Lemma append_cons c a b : String c a +:+ b = String c (a +:+ b).
Proof. reflexivity. Qed.

Lemma prefix_app a b hay :
  String.prefix (a +:+ b) hay = true → ∃ rest, hay = a +:+ rest ∧ String.prefix b rest = true.
Proof.
  revert hay. induction a as [|c a IH]; intros hay H.
  - by exists hay.
  - rewrite append_cons in H. destruct hay as [|c' hay]; [done|].
    simpl in H.
    destruct (Ascii.ascii_dec c c') as [->|Hne]; [|done].
    destruct (IH _ H) as (rest & -> & Hb). by exists rest.
Qed.

Lemma contains_unfold needle hay :
  contains needle hay =
  String.prefix needle hay ||
  match hay with EmptyString => false | String _ hay' => contains needle hay' end.
Proof. by destruct hay. Qed.

Lemma contains_here needle hay :
  String.prefix needle hay = true → contains needle hay = true.
Proof. intros H. rewrite contains_unfold. by rewrite H. Qed.

Lemma contains_app_skip a needle rest :
  String.prefix needle rest = true → contains needle (a +:+ rest) = true.
Proof.
  intros H. induction a as [|c a IH].
  - by apply contains_here.
  - rewrite append_cons. by apply contains_suffix.
Qed.

Lemma contains_app a b hay :
  contains (a +:+ b) hay = true → contains b hay = true.
Proof.
  induction hay as [|c hay IH]; intros H; rewrite contains_unfold in H.
  - rewrite orb_false_r in H.
    destruct (prefix_app _ _ _ H) as (rest & Hrest & Hb).
    destruct a; [|done]. change ("" +:+ rest) with rest in Hrest. subst rest.
    by apply contains_here.
  - apply orb_true_iff in H as [H|H].
    + destruct (prefix_app _ _ _ H) as (rest & -> & Hb).
      by apply contains_app_skip.
    + apply contains_suffix. by apply IH.
Qed.

Lemma is_memory_error_iff (e : exn) :
  is_memory_error e = contains "memory" (lower (str_exn e)).
Proof.
  unfold is_memory_error.
  destruct (contains "out of memory" _) eqn:H; [|done].
  simpl. symmetry. by apply (contains_app "out of " "memory").
Qed.

(** ** The order on labels *)

Lemma ascii_compare_N (a b : ascii) :
  Ascii.compare a b = N.compare (N_of_ascii a) (N_of_ascii b).
Proof. reflexivity. Qed.

Lemma string_compare_refl (s : string) : String.compare s s = Eq.
Proof.
  induction s as [|c s IH]; [done|]. simpl.
  by rewrite ascii_compare_N, N.compare_refl.
Qed.

Lemma string_compare_lt_trans (a b c : string) :
  String.compare a b = Lt → String.compare b c = Lt → String.compare a c = Lt.
Proof.
  revert b c. induction a as [|x a IH]; intros [|y b] [|z c]; simpl; try done.
  rewrite !ascii_compare_N.
  destruct (N.compare_spec (N_of_ascii x) (N_of_ascii y)) as [Hxy|Hxy|Hxy];
    destruct (N.compare_spec (N_of_ascii y) (N_of_ascii z)) as [Hyz|Hyz|Hyz];
    try done; intros H1 H2.
  - rewrite Hxy, Hyz, N.compare_refl. eauto.
  - assert (N_of_ascii x < N_of_ascii z)%N as ->%N.compare_lt_iff by lia. done.
  - assert (N_of_ascii x < N_of_ascii z)%N as ->%N.compare_lt_iff by lia. done.
  - assert (N_of_ascii x < N_of_ascii z)%N as ->%N.compare_lt_iff by lia. done.
Qed.

#[global] Instance str_le_refl : Reflexive str_le.
Proof. intros s. unfold str_le, String.leb. by rewrite string_compare_refl. Qed.

#[global] Instance str_le_trans : Transitive str_le.
Proof.
  intros a b c. unfold str_le, String.leb.
  destruct (String.compare a b) eqn:Hab; [| |done].
  - apply String.compare_eq_iff in Hab as ->. done.
  - destruct (String.compare b c) eqn:Hbc; [| |done]; intros _ _.
    + apply String.compare_eq_iff in Hbc as <-. by rewrite Hab.
    + by rewrite (string_compare_lt_trans a b c).
Qed.

#[global] Instance str_le_total : Total str_le.
Proof. intros a b. apply String.leb_total. Qed.

#[global] Instance str_le_antisym : AntiSymm (=) str_le.
Proof. intros a b. apply String.leb_antisym. Qed.

(** [speakers_of] gives the sorted list without duplicates of the labels. *)
Lemma speakers_of_sorted_unique (segments : list segment) :
  sorted_unique_labels (speakers_of segments) segments.
Proof.
  unfold sorted_unique_labels, speakers_of, py_sorted, py_list, py_set.
  split; [apply StronglySorted_merge_sort; apply _|].
  split.
  - rewrite merge_sort_Permutation. apply NoDup_elements.
  - intros x. rewrite merge_sort_Permutation, elem_of_elements, elem_of_list_to_set.
    rewrite list_elem_of_fmap.
    split; [intros (s & -> & Hs) | intros (s & Hs & <-)]; by exists s.
Qed.

(** No other list will do: sortedness, absence of duplicates and the
    elements determine it. *)
Lemma sorted_unique_labels_unique (l1 l2 : list string) (segments : list segment) :
  sorted_unique_labels l1 segments → sorted_unique_labels l2 segments → l1 = l2.
Proof.
  intros (S1 & N1 & E1) (S2 & N2 & E2).
  apply (StronglySorted_unique str_le); [done..|].
  apply NoDup_Permutation; [done..|].
  intros x. by rewrite E1, E2.
Qed.

(** ** The Device Selector *)

(** C6. [get_safe_device] returns the MPS device exactly when MPS is
    preferred, the backend is present and reported available, and the one
    self-test it runs passes; in every other case it returns the CPU,
    whatever [fallback_to_cpu] is.  The self-test is started once when the
    three conditions hold and never otherwise; when it passes it is the
    allocation, the multiplication, the release, the cache purge and a
    collection, in that order.  The call never raises. *)
Theorem get_safe_device_selects (E : env) (prefer_mps fallback_to_cpu : bool) (w : world) :
  let gate := prefer_mps && has_mps_backend E && mps_is_available E in
  let run := get_safe_device E prefer_mps fallback_to_cpu w in
  run.1 = Ok (if gate && selftest_passes E then mps else cpu) ∧
  (run.1 = Ok mps ↔
     prefer_mps = true ∧ has_mps_backend E = true ∧ mps_is_available E = true ∧
     selftest_passes E = true) ∧
  (∃ new, w_log run.2 = w_log w ++ new ∧
          count_selftests new = (if gate then 1%nat else 0%nat) ∧
          (gate && selftest_passes E = true →
           new = [EvTensorAlloc; EvTensorMul; EvTensorDel; EvMpsEmptyCache; EvGcCollect])) ∧
  w_fs run.2 = w_fs w.
Proof.
  intros gate run.
  assert (run.1 = Ok (if gate && selftest_passes E then mps else cpu)) as Hret.
  { subst gate run. unfold get_safe_device, mps_selftest, selftest_passes.
    destruct (prefer_mps && has_mps_backend E && mps_is_available E); [|done].
    unfold_m.
    destruct (selftest_alloc E), (selftest_mul E), (selftest_empty_cache E),
      (selftest_gc E), fallback_to_cpu; reflexivity. }
  split; [done|]. split.
  - rewrite Hret. subst gate.
    destruct prefer_mps, (has_mps_backend E), (mps_is_available E), (selftest_passes E);
      simpl; naive_solver.
  - subst gate run. unfold get_safe_device, mps_selftest, selftest_passes.
    destruct (prefer_mps && has_mps_backend E && mps_is_available E).
    + unfold_m.
      destruct (selftest_alloc E), (selftest_mul E), (selftest_empty_cache E),
        (selftest_gc E), fallback_to_cpu; simpl;
        (split; [|done]); rewrite <- ?app_assoc; eexists; (split; [reflexivity|]);
        (split; [reflexivity|]); simpl; try done.
    + simpl. split; [|done]. exists []. by rewrite app_nil_r.
Qed.

(** ** The Memory-Managed Execution Wrapper *)

(** The result and the log of [process_with_memory_management]. *)
Lemma process_with_memory_management_run
    (run : result (list track)) (p : pipeline) (audio_file : string) (dev : device) (w : world) :
  let out := process_with_memory_management run p audio_file dev w in
  out.1 = run ∧
  w_log out.2 =
    w_log w ++ cache_events dev ++ [EvGcCollect; EvInfer (pl_device p) audio_file] ++
    match run with
    | Ok _ => cache_events dev ++ [EvGcCollect]
    | Raise _ => []
    end ∧
  w_fs out.2 = w_fs w.
Proof.
  destruct w as [fs log clk ch].
  unfold process_with_memory_management, clear_cache. unfold_m.
  destruct dev, run as [d|e]; simpl; try destruct (is_RuntimeError e); simpl;
    (split; [done|]); (split; [|done]); rewrite <- ?app_assoc; reflexivity.
Qed.

(** C8, as the code has it.  [process_with_memory_management] clears the
    cache of the device (nothing for the CPU) and collects garbage before
    the inference call on every path; it does so again after the call when
    the call returns, and does nothing more when the call raises: the
    exception goes to the caller unchanged. *)
Theorem wrapper_cleanup_around_call
    (run : result (list track)) (p : pipeline) (audio_file : string) (dev : device) (w : world) :
  let out := process_with_memory_management run p audio_file dev w in
  out.1 = run ∧
  w_log out.2 =
    w_log w ++ cache_events dev ++ [EvGcCollect; EvInfer (pl_device p) audio_file] ++
    match run with
    | Ok _ => cache_events dev ++ [EvGcCollect]
    | Raise _ => []
    end.
Proof.
  intros out.
  destruct (process_with_memory_management_run run p audio_file dev w) as (H1 & H2 & _).
  by split.
Qed.

(** C8, counterexample.  On MPS, with an inference call that raises the
    out-of-memory [RuntimeError], the log ends at the call: no cache clear
    and no collection follow it. *)
Lemma wrapper_no_cleanup_after_raise :
  let out := process_with_memory_management (Raise mps_oom) (mk_pipeline mps (Some 16%N))
               "audio_16k.wav" mps fresh_world in
  out.1 = Raise mps_oom ∧
  w_log out.2 = [EvMpsEmptyCache; EvGcCollect; EvInfer mps "audio_16k.wav"] ∧
  ¬ cleaned_after_call mps (w_log out.2).
Proof.
  split; [reflexivity|]. split; [reflexivity|].
  intros (before & d & audio & after & H).
  change (w_log _) with [EvMpsEmptyCache; EvGcCollect; EvInfer mps "audio_16k.wav"] in H.
  destruct before as [|? [|? [|? l]]]; simpl in H; try discriminate H.
  injection H as _ _ _ H. destruct l; discriminate H.
Qed.

(** ** The supervisor *)

Lemma unlink_if_exists_present (path : string) (w : world) (c : content) :
  w_fs w !! path = Some c →
  unlink_if_exists path w =
    (Ok tt, mk_world (delete path (w_fs w)) (w_log w ++ [EvUnlink path]) (w_clock w) (w_child w)).
Proof.
  intros H. unfold unlink_if_exists, path_exists, unlink. unfold_m.
  rewrite H. reflexivity.
Qed.

Lemma unlink_if_exists_absent (path : string) (w : world) :
  w_fs w !! path = None → unlink_if_exists path w = (Ok tt, w).
Proof.
  intros H. unfold unlink_if_exists, path_exists, unlink. unfold_m.
  rewrite H. reflexivity.
Qed.

Lemma cleanup_removes (path : string) (w : world) :
  w_fs (cleanup path w) !! path = None.
Proof.
  unfold cleanup. destruct (w_fs w !! path) as [c|] eqn:H.
  - rewrite (unlink_if_exists_present _ _ c H). simpl. apply lookup_delete_eq.
  - by rewrite (unlink_if_exists_absent _ _ H).
Qed.

Lemma cleanup_frame (path other : string) (w : world) :
  other ≠ path → w_fs (cleanup path w) !! other = w_fs w !! other.
Proof.
  intros Hne. unfold cleanup. destruct (w_fs w !! path) as [c|] eqn:H.
  - rewrite (unlink_if_exists_present _ _ c H). simpl. by apply lookup_delete_ne.
  - by rewrite (unlink_if_exists_absent _ _ H).
Qed.

(** The supervisor is the guarded body followed by the [finally] clause. *)
Lemma run_diarization_isolated_available (tmp : string) (C : child) (timeout : N) (w : world) :
  run_diarization_isolated true tmp C timeout w =
    let w1 := mk_world (<[tmp := Raw ""]> (w_fs w)) (w_log w ++ [EvMkTemp tmp])
                (w_clock w) (w_child w) in
    let body := try_except (supervise C tmp timeout) is_Exception (λ _, ret None) w1 in
    (body.1, cleanup tmp body.2).
Proof.
  unfold run_diarization_isolated, mktemp. simpl. unfold bind, try_finally. simpl.
  unfold set_fs, add_log. simpl.
  by destruct (try_except _ _ _ _).
Qed.

(** C4. Whatever the child does -- exits with a result, exits with a
    failure payload, crashes, hangs until the deadline, or cannot even be
    started -- the result file created for the invocation is gone when
    [run_diarization_isolated] returns. *)
Theorem artifact_removed_on_every_path (tmp : string) (C : child) (timeout : N) (w : world) :
  let out := run_diarization_isolated true tmp C timeout w in
  w_fs out.2 !! tmp = None.
Proof.
  simpl. rewrite run_diarization_isolated_available. simpl. apply cleanup_removes.
Qed.

(** C10. When an import of the module raised [ImportError], the flag is
    [False] and [run_diarization_isolated] returns [None] at once: the world
    is unchanged -- no temporary file, no child, no other action. *)
Theorem unavailable_returns_at_once
    (imports : option exn) (e : exn) (tmp : string) (C : child) (timeout : N) (w : world) :
  imports = Some e →
  is_ImportError e = true →
  module_PYANNOTE_AVAILABLE imports = Ok false ∧
  run_diarization_isolated false tmp C timeout w = (Ok None, w).
Proof.
  intros -> He. unfold module_PYANNOTE_AVAILABLE. rewrite He. done.
Qed.

Lemma unavailable_returns_at_once_witness :
  module_PYANNOTE_AVAILABLE (Some (mk_exn ImportError "No module named 'torch'")) = Ok false ∧
  run_diarization_isolated false "/tmp/tmpk3v9.json" (hung_child 0) 600 fresh_world
    = (Ok None, fresh_world).
Proof.
  apply (unavailable_returns_at_once
           (Some (mk_exn ImportError "No module named 'torch'"))
           (mk_exn ImportError "No module named 'torch'")); reflexivity.
Defined.

(** What the guarded body returns, case by case. *)
Lemma guarded_supervise_result (tmp : string) (C : child) (timeout : N)
    (fs : gmap string content) (log : list event) (clk : N) (ch : proc_state) :
  (try_except (supervise C tmp timeout) is_Exception (λ _, ret None)
     (mk_world (<[tmp := Raw ""]> fs) log clk ch)).1
  = Ok (returned_for (spec_outcome C tmp timeout fs)).
Proof.
  unfold spec_outcome, exits_in_time, artifact_after, supervise, start.
  destruct C as [sr rt code cfs td kd]; simpl.
  destruct sr as [e|]; [reflexivity|].
  unfold try_except, bind, join, modify, is_alive. simpl.
  destruct rt as [d|]; simpl.
  - destruct (d <=? timeout)%N eqn:Hd; simpl.
    + unfold collect, path_exists, bind. simpl.
      destruct (cfs (<[tmp:=Raw ""]> fs) !! tmp) as [[v|txt]|] eqn:Hlook; simpl.
      * unfold try_except, bind, json_load. simpl. rewrite Hlook.
        destruct v; simpl; try reflexivity.
        destruct (truthy (default JNull (dict_get "success" kvs))); reflexivity.
      * unfold try_except, bind, json_load. simpl. rewrite Hlook. reflexivity.
      * reflexivity.
    + unfold reclaim, terminate, kill, join, is_alive, bind, modify, ret. simpl.
      destruct td as [t|]; simpl;
        [destruct (t <=? 5)%N; simpl|];
        try (destruct (kd <=? 2)%N; simpl);
        destruct (unlink_if_exists tmp _) as [[[]|?] ?]; reflexivity.
  - unfold reclaim, terminate, kill, join, is_alive, bind, modify, ret. simpl.
    destruct td as [t|]; simpl;
      [destruct (t <=? 5)%N; simpl|];
      try (destruct (kd <=? 2)%N; simpl);
      destruct (unlink_if_exists tmp _) as [[[]|?] ?]; reflexivity.
Qed.



Lemma unlink_if_exists_run (path : string) (w : world) :
  unlink_if_exists path w =
    (Ok tt,
     if bool_decide (is_Some (w_fs w !! path))
     then mk_world (delete path (w_fs w)) (w_log w ++ [EvUnlink path]) (w_clock w) (w_child w)
     else w).
Proof.
  unfold unlink_if_exists, path_exists, unlink. unfold_m.
  by destruct (bool_decide _).
Qed.




(** ** Reasoning about the log *)

Section OnlyAdds.
Context {S : Type} `{Logged S}.

Lemma only_adds_ret {A} Q (a : A) : only_adds Q (ret a : M S A).
Proof. intros s. exists []. by rewrite app_nil_r. Qed.

Lemma only_adds_raise {A} Q e : only_adds Q (raise e : M S A).
Proof. intros s. exists []. by rewrite app_nil_r. Qed.

Lemma only_adds_bind {A B} Q (c : M S A) (k : A → M S B) :
  only_adds Q c → (∀ a, only_adds Q (k a)) → only_adds Q (bind c k).
Proof.
  intros Hc Hk s. unfold bind.
  destruct (Hc s) as (n1 & E1 & F1).
  destruct (c s) as [[a|e] s1]; simpl in *.
  - destruct (Hk a s1) as (n2 & E2 & F2).
    exists (n1 ++ n2). rewrite E2, E1, app_assoc. split; [done|].
    by apply Forall_app.
  - by exists n1.
Qed.

Lemma only_adds_try_except {A} Q (body : M S A) catches handler :
  only_adds Q body → (∀ e, only_adds Q (handler e)) →
  only_adds Q (try_except body catches handler).
Proof.
  intros Hb Hh s. unfold try_except.
  destruct (Hb s) as (n1 & E1 & F1).
  destruct (body s) as [[a|e] s1]; simpl in *.
  - by exists n1.
  - destruct (catches e); [|by exists n1].
    destruct (Hh e s1) as (n2 & E2 & F2).
    exists (n1 ++ n2). rewrite E2, E1, app_assoc. split; [done|].
    by apply Forall_app.
Qed.

Lemma only_adds_if {A} Q (b : bool) (c1 c2 : M S A) :
  only_adds Q c1 → only_adds Q c2 → only_adds Q (if b then c1 else c2).
Proof. by destruct b. Qed.

Lemma only_adds_weaken {A} (Q Q' : event → Prop) (c : M S A) :
  (∀ ev, Q ev → Q' ev) → only_adds Q c → only_adds Q' c.
Proof.
  intros HQ Hc s. destruct (Hc s) as (n & E & F). exists n. split; [done|].
  eapply Forall_impl; eauto.
Qed.
End OnlyAdds.

Lemma only_adds_lift {A} Q (c : M world A) : only_adds Q c → only_adds Q (lift c).
Proof.
  intros Hc s. unfold lift. destruct (Hc (ws_world s)) as (n & E & F).
  destruct (c (ws_world s)) as [r w']. by exists n.
Qed.

Lemma only_adds_emit Q ev : Q ev → only_adds Q (emit ev).
Proof. intros HQ w. exists [ev]. split; [done|]. by constructor. Qed.

Lemma only_adds_call {A} Q ev (o : result A) : Q ev → only_adds Q (call ev o).
Proof. intros HQ w. exists [ev]. split; [done|]. by constructor. Qed.

Lemma only_adds_set_fs Q f : only_adds Q (modify (set_fs f)).
Proof. intros w. exists []. by rewrite app_nil_r. Qed.

Lemma only_adds_write_json Q path payload :
  Q (EvWrite path payload) → only_adds Q (write_json path payload).
Proof. intros HQ w. exists [EvWrite path payload]. split; [done|]. by constructor. Qed.

Lemma only_adds_unlink_if_exists Q path :
  Q (EvUnlink path) → only_adds Q (unlink_if_exists path).
Proof.
  intros HQ w. rewrite unlink_if_exists_run. simpl.
  destruct (bool_decide _).
  - exists [EvUnlink path]. split; [done|]. by constructor.
  - exists []. by rewrite app_nil_r.
Qed.

Lemma only_adds_wstate_modify Q (f : wstate → wstate) :
  (∀ s, ws_world (f s) = ws_world s) → only_adds Q (modify f).
Proof.
  intros Hf s. exists []. unfold modify. simpl.
  unfold log_of, wstate_logged. by rewrite Hf, app_nil_r.
Qed.

Lemma only_adds_pure {S} `{Logged S} {A} Q (c : M S A) :
  (∀ s, (c s).2 = s) → only_adds Q c.
Proof. intros Hc s. exists []. by rewrite Hc, app_nil_r. Qed.

(** Splits a goal [only_adds Q c] along the structure of [c]. *)
Ltac only_adds_step :=
  first
    [ apply only_adds_unlink_if_exists
    | apply only_adds_write_json
    | apply only_adds_emit
    | apply only_adds_call
    | apply only_adds_set_fs
    | apply only_adds_ret
    | apply only_adds_raise
    | apply only_adds_lift
    | apply only_adds_bind; [|intros ?]
    | apply only_adds_try_except; [|intros ?]
    | apply only_adds_if ].

Lemma written_app (l1 l2 : list event) : written (l1 ++ l2) = written l1 ++ written l2.
Proof.
  induction l1 as [|ev l1 IH]; [done|].
  destruct ev; simpl; by rewrite ?IH.
Qed.

Lemma inferences_app (l1 l2 : list event) :
  inferences (l1 ++ l2) = inferences l1 ++ inferences l2.
Proof.
  induction l1 as [|ev l1 IH]; [done|].
  destruct ev; simpl; by rewrite ?IH.
Qed.

Lemma quiet_written (new : list event) : Forall quiet new → written new = [].
Proof.
  induction 1 as [|ev new [_ Hw] _ IH]; [done|].
  destruct ev; simpl in *; done.
Qed.

Lemma quiet_inferences (new : list event) : Forall quiet new → inferences new = [].
Proof.
  induction 1 as [|ev new [Hi _] _ IH]; [done|].
  destruct ev; simpl in *; done.
Qed.

Lemma writes_only_written P (new : list event) :
  Forall (writes_only P) new → Forall P (written new).
Proof.
  induction 1 as [|ev new Hev _ IH]; [constructor|].
  destruct ev; simpl in *; try done. by constructor.
Qed.

(** ** The helper adds neither inference calls nor payloads *)

Lemma get_safe_device_quiet E prefer_mps fallback_to_cpu :
  only_adds quiet (get_safe_device E prefer_mps fallback_to_cpu).
Proof.
  unfold get_safe_device, mps_selftest.
  repeat (only_adds_step; try done).
  destruct a; repeat (only_adds_step; try done).
Qed.

Lemma create_pyannote_pipeline_safe_quiet E prefer_mps bs :
  only_adds quiet (create_pyannote_pipeline_safe E prefer_mps bs).
Proof.
  unfold create_pyannote_pipeline_safe.
  only_adds_step; [apply get_safe_device_quiet|].
  repeat (only_adds_step; try done).
  destruct (seg_probe E); repeat (only_adds_step; try done).
Qed.

(** ** The worker *)

Lemma diarize_setup_quiet E audio use_mps batch :
  only_adds quiet (diarize_setup E audio use_mps batch).
Proof.
  unfold diarize_setup.
  only_adds_step; [apply only_adds_lift, create_pyannote_pipeline_safe_quiet|].
  only_adds_step; [by apply only_adds_wstate_modify|].
  only_adds_step.
  { destruct use_mps; [destruct (has_mps_backend E)|]; only_adds_step. }
  only_adds_step; [apply only_adds_lift; by apply only_adds_pure|].
  only_adds_step; [by apply only_adds_wstate_modify|].
  repeat (only_adds_step; try done).
Qed.

(** When the setup returns, [pipeline] and [converted_path] are bound and
    the converted file exists. *)
Lemma diarize_setup_binds E audio use_mps batch s0 p dev dstr cp s1 :
  diarize_setup E audio use_mps batch s0 = (Ok (p, dev, dstr, cp), s1) →
  ws_pipeline s1 = Some p ∧ ws_converted s1 = Some cp ∧
  w_fs (ws_world s1) !! cp = Some (Raw "RIFF").
Proof.
  unfold diarize_setup. unfold bind at 1. unfold lift at 1.
  destruct (create_pyannote_pipeline_safe _ _ _ _) as [[p'|e] w1]; [|done].
  unfold assign_pipeline, assign_converted. unfold_m. simpl.
  destruct use_mps; [destruct (has_mps_backend E)|]; simpl; try done.
  all: destruct (with_suffix E audio "_16k.wav") as [cp'|e]; simpl; try done.
  all: destruct (ffmpeg E); simpl; try done.
  all: intros [= <- <- <- <- <-]; simpl; by rewrite lookup_insert_eq.
Qed.

Lemma quiet_writes_only P ev : quiet ev → writes_only P ev.
Proof. intros [_ Hw]. by destruct ev. Qed.

Lemma clear_cache_adds Q dev :
  Q EvMpsEmptyCache → Q EvCudaEmptyCache → only_adds Q (clear_cache dev).
Proof. intros. destruct dev; simpl; by only_adds_step. Qed.

Lemma process_with_memory_management_adds P run p audio dev :
  only_adds (writes_only P) (process_with_memory_management run p audio dev).
Proof.
  unfold process_with_memory_management.
  repeat (first [apply clear_cache_adds | only_adds_step]; try done).
Qed.

Lemma read_pipeline_adds Q : only_adds Q read_pipeline.
Proof. apply only_adds_pure. intros s. unfold read_pipeline. by destruct (ws_pipeline s). Qed.

Lemma read_converted_adds Q : only_adds Q read_converted.
Proof. apply only_adds_pure. intros s. unfold read_converted. by destruct (ws_converted s). Qed.

(** Every payload [diarize_isolated] writes is one of its three dict
    literals, with [speakers] computed from the segments next to it. *)
Lemma diarize_isolated_payloads avail E audio out use_mps batch :
  only_adds (writes_only worker_payload) (diarize_isolated avail E audio out use_mps batch).
Proof.
  assert (∀ path msg, writes_only worker_payload (EvWrite path (failure_result msg))) as Hfail.
  { intros. right. right. by eexists. }
  unfold diarize_isolated. destruct avail; simpl.
  - only_adds_step.
    + unfold diarize_body. only_adds_step.
      { eapply only_adds_weaken; [apply quiet_writes_only|apply diarize_setup_quiet]. }
      destruct a as [[[p dev] dstr] cp]. unfold diarize_infer.
      only_adds_step; [apply only_adds_lift, process_with_memory_management_adds|].
      repeat (only_adds_step; try done).
      left. by do 3 eexists.
    + unfold diarize_handler. apply only_adds_bind.
      * apply only_adds_if; [|apply only_adds_ret].
        apply only_adds_try_except; [|intros; apply only_adds_ret].
        apply only_adds_bind; [|intros; apply only_adds_ret].
        unfold cpu_fallback.
        apply only_adds_bind; [apply read_pipeline_adds|intros p].
        apply only_adds_bind; [by apply only_adds_lift, only_adds_call|intros _].
        apply only_adds_bind; [by apply only_adds_wstate_modify|intros _].
        apply only_adds_bind; [apply read_converted_adds|intros cp].
        repeat (only_adds_step; try done).
        right. left. by do 2 eexists.
      * intros [r|err]; repeat (only_adds_step; try done).
  - repeat (only_adds_step; try done).
Qed.

Lemma worker_run_payloads avail E audio out use_mps batch fs payload :
  In payload (written (w_log (ws_world (worker_run avail E audio out use_mps batch fs).2))) →
  worker_payload payload.
Proof.
  unfold worker_run.
  destruct (diarize_isolated_payloads avail E audio out use_mps batch
              (mk_wstate (mk_world fs [] 0 NotStarted) None None)) as (new & Hlog & Hall).
  unfold log_of, wstate_logged in Hlog. simpl in Hlog. rewrite Hlog.
  apply writes_only_written in Hall. rewrite Forall_forall in Hall.
  intros Hin. apply Hall. by apply list_elem_of_In.
Qed.






(** ** Past the setup: inference, handler, retry *)

(** With the setup done, [diarize_isolated] is the rest of the [try] under
    its handler. *)
Lemma diarize_isolated_after_setup E audio out use_mps batch s0 p dev dstr cp s1 :
  diarize_setup E audio use_mps batch s0 = (Ok (p, dev, dstr, cp), s1) →
  diarize_isolated true E audio out use_mps batch s0 =
    try_except (diarize_infer E out p dev dstr cp) is_RuntimeError (diarize_handler E out) s1.
Proof.
  intros H. unfold diarize_isolated, diarize_body. simpl.
  unfold try_except, bind. by rewrite H.
Qed.

(** The first inference call raising: the exception leaves the wrapper and
    the rest of the [try] with nothing written. *)
Lemma diarize_infer_raises E out p dev dstr cp e s :
  infer_first E = Raise e →
  ∃ s', diarize_infer E out p dev dstr cp s = (Raise e, s') ∧
        ws_pipeline s' = ws_pipeline s ∧ ws_converted s' = ws_converted s ∧
        w_log (ws_world s') =
          w_log (ws_world s) ++ cache_events dev ++ [EvGcCollect; EvInfer (pl_device p) cp].
Proof.
  intros He. unfold diarize_infer. unfold bind at 1. unfold lift at 1.
  destruct (process_with_memory_management_run (infer_first E) p cp dev (ws_world s))
    as (Hr & Hlog & _).
  destruct (process_with_memory_management _ _ _ _ _) as [r w'].
  simpl in *. rewrite He in Hr, Hlog. subst r.
  eexists. split; [reflexivity|]. simpl. by rewrite Hlog, ?app_nil_r.
Qed.

(** The handler on a memory error, with [pipeline] and [converted_path]
    bound and the converted file in place. *)
Lemma diarize_handler_memory E out e s p cp c :
  is_memory_error e = true →
  ws_pipeline s = Some p → ws_converted s = Some cp →
  w_fs (ws_world s) !! cp = Some c →
  let run := diarize_handler E out e s in
  let log := w_log (ws_world run.2) in
  match to_cpu_fallback E, infer_retry E with
  | None, Ok d =>
      let payload := fallback_result (speakers_of (extract_segments d)) (extract_segments d) e in
      run.1 = Ok (Some payload) ∧
      log = w_log (ws_world s) ++
            [EvPipelineTo cpu; EvInfer cpu cp; EvWrite out payload; EvUnlink cp]
  | None, Raise e2 =>
      run.1 = Ok None ∧
      log = w_log (ws_world s) ++
            [EvPipelineTo cpu; EvInfer cpu cp; EvWrite out (failure_result (str_exn e2))]
  | Some e2, _ =>
      run.1 = Ok None ∧
      log = w_log (ws_world s) ++
            [EvPipelineTo cpu; EvWrite out (failure_result (str_exn e2))]
  end.
Proof.
  intros Hmem Hp Hcp Hfile.
  destruct s as [[fs lg clk ch] pl cv]. simpl in *. subst pl cv.
  unfold diarize_handler, cpu_fallback, read_pipeline, read_converted,
    assign_pipeline, write_json. rewrite Hmem. unfold_m. simpl.
  destruct (to_cpu_fallback E) as [e2|]; simpl.
  { split; [done|]. by rewrite <- !app_assoc. }
  destruct (infer_retry E) as [d|e2]; simpl.
  - rewrite unlink_if_exists_run. simpl.
    assert (is_Some (<[out:=Doc (fallback_result (speakers_of (extract_segments d))
                                   (extract_segments d) e)]> fs !! cp)) as Hex.
    { apply lookup_insert_is_Some'. right. by eexists. }
    rewrite (bool_decide_eq_true_2 _ Hex). simpl.
    split; [done|]. by rewrite <- !app_assoc.
  - split; [done|]. by rewrite <- !app_assoc.
Qed.




(** ** One payload per run *)

(** The handler always returns, having written exactly one payload. *)
Lemma diarize_handler_writes_once E out e s :
  ∃ r payload,
    (diarize_handler E out e s).1 = Ok r ∧
    written (w_log (ws_world (diarize_handler E out e s).2))
    = written (w_log (ws_world s)) ++ [payload].
Proof.
  destruct s as [[fs lg clk ch] pl cv].
  unfold diarize_handler, cpu_fallback, read_pipeline, read_converted,
    assign_pipeline, write_json. unfold_m. simpl.
  destruct (is_memory_error e); simpl;
    [destruct pl as [p|]; simpl;
     [destruct (to_cpu_fallback E); simpl;
      [|destruct cv as [cp|]; simpl;
        [destruct (infer_retry E); simpl;
         [rewrite unlink_if_exists_run; simpl; destruct (bool_decide _); simpl|]|]]|]|].
  all: do 2 eexists; (split; [reflexivity|]).
  all: rewrite ?written_app; simpl; rewrite ?app_nil_r, <- ?app_assoc; reflexivity.
Qed.

(** The rest of the [try] past the setup writes one payload when it
    returns and none when it raises. *)
Lemma diarize_infer_writes E out p dev dstr cp s :
  let run := diarize_infer E out p dev dstr cp s in
  match run.1 with
  | Ok _ => ∃ payload,
      written (w_log (ws_world run.2)) = written (w_log (ws_world s)) ++ [payload]
  | Raise _ => written (w_log (ws_world run.2)) = written (w_log (ws_world s))
  end.
Proof.
  intros run. subst run. unfold diarize_infer, write_json. unfold_m.
  destruct (process_with_memory_management_run (infer_first E) p cp dev (ws_world s))
    as (Hr & Hlog & _).
  destruct (process_with_memory_management _ _ _ _ _) as [r w'].
  simpl in Hr, Hlog. subst r.
  assert (written (cache_events dev) = []) as Hcw by by destruct dev.
  destruct (infer_first E) as [d|e]; simpl.
  - rewrite unlink_if_exists_run. simpl.
    destruct (bool_decide _), (device_eqb dev mps); simpl; eexists;
      rewrite !written_app, Hlog, !written_app, Hcw; simpl;
      rewrite ?written_app, ?Hcw; simpl; rewrite ?app_nil_r; reflexivity.
  - rewrite Hlog, !written_app, Hcw. simpl. by rewrite !app_nil_r.
Qed.

(** Every run of the worker that returns has written exactly one payload;
    a run that an exception leaves has written none, and that exception is
    not a [RuntimeError]. *)
Lemma worker_writes_once_or_raises avail E audio out use_mps batch s :
  let run := diarize_isolated avail E audio out use_mps batch s in
  match run.1 with
  | Ok _ => ∃ payload,
      written (w_log (ws_world run.2)) = written (w_log (ws_world s)) ++ [payload]
  | Raise e =>
      written (w_log (ws_world run.2)) = written (w_log (ws_world s)) ∧
      is_RuntimeError e = false
  end.
Proof.
  intros run. subst run. unfold diarize_isolated. destruct avail; simpl.
  2: { unfold write_json. unfold_m. simpl. eexists. by rewrite written_app. }
  unfold try_except, diarize_body, bind.
  destruct (diarize_setup_quiet E audio use_mps batch s) as (new & Hnew & Hquiet).
  unfold log_of, wstate_logged in Hnew.
  destruct (diarize_setup E audio use_mps batch s) as [[[[[p dev] dstr] cp]|e] s1];
    simpl in Hnew.
  - pose proof (diarize_infer_writes E out p dev dstr cp s1) as Hi. simpl in Hi.
    destruct (diarize_infer E out p dev dstr cp s1) as [[r|e] s2]; simpl in *.
    + destruct Hi as [payload Hi]. exists payload.
      by rewrite Hi, Hnew, written_app, (quiet_written _ Hquiet), app_nil_r.
    + destruct (is_RuntimeError e) eqn:Hrt.
      * destruct (diarize_handler_writes_once E out e s2) as (r & payload & Hr & Hw).
        rewrite Hr. exists payload.
        by rewrite Hw, Hi, Hnew, written_app, (quiet_written _ Hquiet), app_nil_r.
      * simpl. split; [|done].
        by rewrite Hi, Hnew, written_app, (quiet_written _ Hquiet), app_nil_r.
  - destruct (is_RuntimeError e) eqn:Hrt.
    + destruct (diarize_handler_writes_once E out e s1) as (r & payload & Hr & Hw).
      rewrite Hr. exists payload.
      by rewrite Hw, Hnew, written_app, (quiet_written _ Hquiet), app_nil_r.
    + simpl. split; [|done].
      by rewrite Hnew, written_app, (quiet_written _ Hquiet), app_nil_r.
Qed.

(** [Path(...).with_suffix('_16k.wav')] is rejected by pathlib for every
    path: the suffix does not start with a dot. *)
Lemma pathlib_rejects_16k_suffix (path : string) :
  pathlib_with_suffix path "_16k.wav" = Raise (mk_exn ValueError "Invalid suffix '_16k.wav'").
Proof. reflexivity. Qed.

(** C2, at the failing input.  ffmpeg exits with status 1:
    [subprocess.run(check=True)] raises [CalledProcessError], which is not
    a [RuntimeError]; the exception leaves [diarize_isolated], nothing is
    written, and the result file is as the parent created it. *)
Lemma transcoder_failure_leaves_no_payload :
  let out := "/tmp/tmpk3v9.json" in
  let run := worker_run true env_ffmpeg_fails "a.mp3" out true 16 {[ out := Raw "" ]} in
  (∃ msg, run.1 = Raise (mk_exn CalledProcessError msg)) ∧
  written (w_log (ws_world run.2)) = [] ∧
  w_fs (ws_world run.2) !! out = Some (Raw "").
Proof.
  split; [eexists; vm_compute; reflexivity|].
  split; vm_compute; reflexivity.
Qed.

(** The same with a model that cannot be loaded, and with pathlib's own
    [with_suffix]: the worker dies before the conversion, nothing written. *)
Lemma construction_failure_leaves_no_payload :
  let run := worker_run true env_no_model "a.mp3" "/tmp/tmpk3v9.json" true 16 ∅ in
  (∃ msg, run.1 = Raise (mk_exn OSError msg)) ∧
  written (w_log (ws_world run.2)) = [].
Proof. split; [eexists|]; vm_compute; reflexivity. Qed.

Lemma pathlib_suffix_leaves_no_payload :
  let run := worker_run true (with_pathlib env_ok) "a.mp3" "/tmp/tmpk3v9.json" true 16 ∅ in
  run.1 = Raise (mk_exn ValueError "Invalid suffix '_16k.wav'") ∧
  written (w_log (ws_world run.2)) = [] ∧
  inferences (w_log (ws_world run.2)) = [].
Proof. repeat split; vm_compute; reflexivity. Qed.

(** Seen from the parent: the child is gone in time, the result file is
    still empty, and the caller gets [None]. *)
Lemma transcoder_failure_seen_by_supervisor :
  let tmp := "/tmp/tmpk3v9.json" in
  let C := worker_child true env_ffmpeg_fails "a.mp3" tmp true 16 3 in
  exit_code C = 1%Z ∧
  artifact_after C tmp ∅ = Some (Raw "") ∧
  (run_diarization_isolated true tmp C 600 fresh_world).1 = Ok None.
Proof. repeat split; vm_compute; reflexivity. Qed.

(** The scenario of a worker that wrote a success payload: the caller
    receives the dict as written, and the result file is gone. *)
Lemma success_artifact_returned :
  let tmp := "/tmp/tmpk3v9.json" in
  let payload :=
    success_result ["SPEAKER_00"; "SPEAKER_01"] (extract_segments example_tracks)
      "cpu" 0.75%float in
  let out := run_diarization_isolated true tmp (writing_child tmp payload 3) 600 fresh_world in
  out.1 = Ok (Some payload) ∧ w_fs out.2 !! tmp = None ∧ w_child out.2 = Exited 0.
Proof. repeat split; vm_compute; reflexivity. Qed.

(** * Further properties *)

(** ** The supervisor *)

(** Any path other than the result file holds, at the return, what the
    child left there. *)
Lemma run_frame (tmp other : string) (C : child) (timeout : N) (w : world) :
  other ≠ tmp →
  w_fs (run_diarization_isolated true tmp C timeout w).2 !! other =
    match start_raises C with
    | None => child_fs C (<[tmp := Raw ""]> (w_fs w)) !! other
    | Some _ => w_fs w !! other
    end.
Proof.
  intros Hne. rewrite run_diarization_isolated_available. simpl.
  rewrite cleanup_frame by done.
  destruct C as [sr rt code cfs td kd], w as [fs log clk ch]; simpl.
  unfold try_except, supervise, start. simpl.
  destruct sr as [e|]; simpl.
  { unfold bind. simpl. by rewrite lookup_insert_ne. }
  unfold bind, join, modify, is_alive. simpl.
  assert (∀ W : world, w_fs (unlink_if_exists tmp W).2 !! other = w_fs W !! other) as Hun.
  { intros W. rewrite unlink_if_exists_run. simpl.
    destruct (bool_decide _); simpl; [by rewrite lookup_delete_ne|done]. }
  destruct rt as [d|]; simpl; [destruct (d <=? timeout)%N; simpl|].
  - unfold collect, path_exists, bind, try_except, json_load, py_get. simpl.
    destruct (bool_decide _); simpl; [|done].
    destruct (cfs (<[tmp:=Raw ""]> fs) !! tmp) as [[v|txt]|]; simpl; try done.
    destruct v; simpl; try done.
    by destruct (truthy _).
  - unfold reclaim, terminate, kill, join, is_alive, bind, modify, ret. simpl.
    destruct td as [t|]; simpl; [destruct (t <=? 5)%N; simpl|];
      try (destruct (kd <=? 2)%N; simpl);
      match goal with
      | |- context [unlink_if_exists tmp ?W] =>
          specialize (Hun W); destruct (unlink_if_exists tmp W) as [[[]|?] ?]
      end; simpl in *; by rewrite Hun.
  - unfold reclaim, terminate, kill, join, is_alive, bind, modify, ret. simpl.
    destruct td as [t|]; simpl; [destruct (t <=? 5)%N; simpl|];
      try (destruct (kd <=? 2)%N; simpl);
      match goal with
      | |- context [unlink_if_exists tmp ?W] =>
          specialize (Hun W); destruct (unlink_if_exists tmp W) as [[[]|?] ?]
      end; simpl in *; by rewrite Hun.
Qed.


(** X1. The supervisor changes no file but its own result file: any other
    path holds, when it returns, what the child left there (or what it held
    before, when the child could not be started). *)
Theorem supervisor_touches_only_its_file
    (tmp other : string) (C : child) (timeout : N) (w : world) :
  other ≠ tmp →
  w_fs (run_diarization_isolated true tmp C timeout w).2 !! other =
    match start_raises C with
    | None => child_fs C (<[tmp := Raw ""]> (w_fs w)) !! other
    | Some _ => w_fs w !! other
    end.
Proof. apply run_frame. Qed.

Lemma supervisor_touches_only_its_file_witness :
  let tmp := "/tmp/tmpk3v9.json" in
  let w := mk_world {[ "/data/keep.txt" := Raw "kept" ]} [] 0 NotStarted in
  w_fs (run_diarization_isolated true tmp (hung_child 1) 600 w).2 !! "/data/keep.txt"
  = Some (Raw "kept").
Proof.
  intros tmp w.
  rewrite (supervisor_touches_only_its_file tmp "/data/keep.txt" (hung_child 1) 600 w);
    [vm_compute; reflexivity | discriminate].
Defined.

(** The whole run when the child exits within the deadline. *)
Lemma run_when_child_exits_in_time (tmp : string) (C : child) (timeout d : N) (w : world) :
  start_raises C = None → run_time C = Some d → (d <=? timeout)%N = true →
  let out := run_diarization_isolated true tmp C timeout w in
  let there := bool_decide (is_Some (child_fs C (<[tmp := Raw ""]> (w_fs w)) !! tmp)) in
  w_log out.2 =
    w_log w ++ [EvMkTemp tmp; EvStart; EvJoin timeout] ++
    (if there then [EvRead tmp; EvUnlink tmp] else []) ∧
  w_clock out.2 = (w_clock w + d)%N ∧
  w_child out.2 = Exited (exit_code C).
Proof.
  intros Hs Hr Hd. rewrite run_diarization_isolated_available.
  destruct C as [sr rt code cfs td kd], w as [fs log clk ch]; simpl in *. subst sr rt.
  unfold try_except, supervise, start, bind, join, modify, is_alive. simpl.
  rewrite Hd. simpl.
  unfold collect, path_exists, bind, try_except, json_load, py_get, cleanup. simpl.
  destruct (bool_decide (is_Some (cfs (<[tmp:=Raw ""]> fs) !! tmp))) eqn:Hex; simpl.
  - destruct (cfs (<[tmp:=Raw ""]> fs) !! tmp) as [[v|txt]|] eqn:Hl; simpl;
      [destruct v; simpl; try destruct (truthy _); simpl| |];
      rewrite unlink_if_exists_run; simpl; rewrite ?Hl; simpl;
      rewrite <- ?app_assoc; simpl; try done.
  - rewrite unlink_if_exists_run; simpl. rewrite Hex. simpl.
    by rewrite <- ?app_assoc.
Qed.

(** The whole run when the child cannot be started. *)
Lemma run_when_start_fails (tmp : string) (C : child) (timeout : N) (w : world) (e : exn) :
  start_raises C = Some e →
  run_diarization_isolated true tmp C timeout w =
    (Ok None,
     mk_world (delete tmp (<[tmp := Raw ""]> (w_fs w)))
       (w_log w ++ [EvMkTemp tmp; EvStart; EvUnlink tmp]) (w_clock w) (w_child w)).
Proof.
  intros Hs. rewrite run_diarization_isolated_available.
  destruct C as [sr rt code cfs td kd], w as [fs log clk ch]; simpl in *. subst sr.
  unfold try_except, supervise, start, bind, cleanup. simpl.
  rewrite unlink_if_exists_run. simpl. rewrite lookup_insert_eq. simpl.
  by rewrite <- !app_assoc.
Qed.

(** The log of a run past the deadline. *)
Lemma run_when_child_is_late (tmp : string) (C : child) (timeout : N) (w : world) :
  start_raises C = None → exits_in_time C timeout = false →
  w_log (run_diarization_isolated true tmp C timeout w).2 =
    w_log w ++ [EvMkTemp tmp; EvStart; EvJoin timeout; EvTerminate; EvJoin 5] ++
    (if term_in_grace C then [] else [EvKill; EvJoin 2]) ++
    (if bool_decide (is_Some (child_fs C (<[tmp := Raw ""]> (w_fs w)) !! tmp))
     then [EvUnlink tmp] else []).
Proof.
  intros Hstart Hlate. rewrite run_diarization_isolated_available.
  destruct C as [sr rt code cfs td kd], w as [fs log clk ch];
    unfold exits_in_time, term_in_grace in *; simpl in *; subst sr.
  unfold try_except, supervise, start, reclaim, terminate, kill, join, is_alive,
    bind, modify, ret; simpl.
  destruct rt as [d|]; simpl; rewrite ?Hlate; simpl.
  all: destruct td as [t|]; simpl; [destruct (t <=? 5)%N eqn:Ht; simpl|].
  all: try (destruct (kd <=? 2)%N eqn:Hk; simpl).
  all: rewrite unlink_if_exists_run; simpl.
  all: unfold cleanup; rewrite unlink_if_exists_run; simpl.
  all: destruct (bool_decide (is_Some (cfs (<[tmp:=Raw ""]> fs) !! tmp))) eqn:Hex; simpl.
  all: rewrite ?lookup_delete_eq, ?Hex; simpl.
  all: rewrite <- ?app_assoc; simpl; reflexivity.
Qed.

Lemma count_events_app kind (l1 l2 : list event) :
  count_events kind (l1 ++ l2) = (count_events kind l1 + count_events kind l2)%nat.
Proof. unfold count_events. by rewrite List.filter_app, length_app. Qed.

(** X2. The exit code of the child decides nothing: with any other exit
    code the supervisor returns the same value, leaves the same files and
    takes the same actions. *)
Theorem exit_code_is_ignored (tmp : string) (C : child) (timeout : N) (w : world) (code : Z) :
  let a := run_diarization_isolated true tmp C timeout w in
  let b := run_diarization_isolated true tmp (with_exit_code code C) timeout w in
  a.1 = b.1 ∧ w_fs a.2 = w_fs b.2 ∧ w_log a.2 = w_log b.2.
Proof.
  intros a b. subst a b. split; [|split].
  - rewrite !run_diarization_isolated_available. simpl. destruct w.
    rewrite !guarded_supervise_result. by destruct C.
  - apply map_eq. intros p. destruct (decide (p = tmp)) as [->|Hne].
    + rewrite !run_diarization_isolated_available. simpl. by rewrite !cleanup_removes.
    + rewrite !run_frame by done. by destruct C.
  - destruct (start_raises C) as [e|] eqn:Hs.
    { rewrite (run_when_start_fails tmp C timeout w e Hs).
      by rewrite (run_when_start_fails tmp (with_exit_code code C) timeout w e Hs). }
    destruct (exits_in_time C timeout) eqn:Hin.
    + unfold exits_in_time in Hin. rewrite Hs in Hin.
      destruct (run_time C) as [d|] eqn:Hr; [|done].
      destruct (run_when_child_exits_in_time tmp C timeout d w Hs Hr Hin) as (-> & _).
      by destruct (run_when_child_exits_in_time tmp (with_exit_code code C) timeout d w
                     Hs Hr Hin) as (-> & _).
    + rewrite (run_when_child_is_late tmp C timeout w Hs Hin).
      by rewrite (run_when_child_is_late tmp (with_exit_code code C) timeout w Hs Hin).
Qed.




(** X5. When [process.start()] raises, the supervisor returns [None]
    without waiting and without sending a signal; its temporary file is
    removed and the child is as it was. *)
Theorem spawn_failure_is_contained
    (tmp : string) (C : child) (timeout : N) (w : world) (e : exn) :
  start_raises C = Some e →
  let out := run_diarization_isolated true tmp C timeout w in
  out.1 = Ok None ∧
  w_log out.2 = w_log w ++ [EvMkTemp tmp; EvStart; EvUnlink tmp] ∧
  w_clock out.2 = w_clock w ∧
  w_child out.2 = w_child w ∧
  w_fs out.2 !! tmp = None.
Proof.
  intros Hs out. subst out. rewrite (run_when_start_fails tmp C timeout w e Hs). simpl.
  repeat split. apply lookup_delete_eq.
Qed.

Lemma spawn_failure_is_contained_witness :
  let C := mk_child (Some (mk_exn OSError "[Errno 12] Cannot allocate memory"))
             None 0 id None 0 in
  (run_diarization_isolated true "/tmp/tmpk3v9.json" C 600 fresh_world).1 = Ok None.
Proof.
  intros C.
  apply (spawn_failure_is_contained "/tmp/tmpk3v9.json" C 600 fresh_world
           (mk_exn OSError "[Errno 12] Cannot allocate memory") eq_refl).
Defined.

(** ** The helper: which pipeline it builds *)

Lemma keeps_fs_ret {A} (a : A) : keeps_fs (ret a).
Proof. by intros w. Qed.

Lemma keeps_fs_raise {A} e : keeps_fs (raise e : M world A).
Proof. by intros w. Qed.

Lemma keeps_fs_emit ev : keeps_fs (emit ev).
Proof. by intros w. Qed.

Lemma keeps_fs_call {A} ev (o : result A) : keeps_fs (call ev o).
Proof. by intros w. Qed.

Lemma keeps_fs_bind {A B} (c : M world A) (k : A → M world B) :
  keeps_fs c → (∀ a, keeps_fs (k a)) → keeps_fs (bind c k).
Proof.
  intros Hc Hk w. unfold bind. specialize (Hc w).
  destruct (c w) as [[a|e] w1]; simpl in *; [|done].
  by rewrite Hk.
Qed.

Lemma keeps_fs_try_except {A} (body : M world A) catches handler :
  keeps_fs body → (∀ e, keeps_fs (handler e)) → keeps_fs (try_except body catches handler).
Proof.
  intros Hb Hh w. unfold try_except. specialize (Hb w).
  destruct (body w) as [[a|e] w1]; simpl in *; [done|].
  destruct (catches e); [|done]. by rewrite Hh.
Qed.

Lemma keeps_fs_if {A} (b : bool) (c1 c2 : M world A) :
  keeps_fs c1 → keeps_fs c2 → keeps_fs (if b then c1 else c2).
Proof. by destruct b. Qed.

Ltac keeps_fs_step :=
  first
    [ apply keeps_fs_emit
    | apply keeps_fs_call
    | apply keeps_fs_ret
    | apply keeps_fs_raise
    | apply keeps_fs_bind; [|intros ?]
    | apply keeps_fs_try_except; [|intros ?]
    | apply keeps_fs_if ].

Lemma get_safe_device_keeps_fs E prefer_mps fallback_to_cpu :
  keeps_fs (get_safe_device E prefer_mps fallback_to_cpu).
Proof.
  unfold get_safe_device, mps_selftest.
  repeat keeps_fs_step. destruct a; keeps_fs_step.
Qed.

Lemma create_pyannote_pipeline_safe_keeps_fs E prefer_mps bs :
  keeps_fs (create_pyannote_pipeline_safe E prefer_mps bs).
Proof.
  unfold create_pyannote_pipeline_safe.
  keeps_fs_step; [apply get_safe_device_keeps_fs|].
  repeat keeps_fs_step.
  destruct (seg_probe E); keeps_fs_step.
Qed.

(** What [get_safe_device] returns. *)
Lemma get_safe_device_result E prefer_mps fallback_to_cpu w :
  (get_safe_device E prefer_mps fallback_to_cpu w).1 = Ok (selected_device E prefer_mps).
Proof.
  unfold get_safe_device, mps_selftest, selected_device, selftest_passes.
  destruct (prefer_mps && has_mps_backend E && mps_is_available E); [|done].
  unfold_m.
  destruct (selftest_alloc E), (selftest_mul E), (selftest_empty_cache E),
    (selftest_gc E), fallback_to_cpu; reflexivity.
Qed.

(** What [create_pyannote_pipeline_safe] returns, case by case. *)
Lemma create_pyannote_pipeline_safe_result E prefer_mps bs w :
  let dev := selected_device E prefer_mps in
  let batch :=
    if device_eqb dev mps && has_batch_attr E
    then Some (match bs with None => 16%N | Some b => b end) else None in
  (create_pyannote_pipeline_safe E prefer_mps bs w).1 =
    match from_pretrained E with
    | Some e => Raise e
    | None =>
        if move_succeeds E then Ok (mk_pipeline dev batch)
        else if device_eqb dev mps then
          match to_cpu_helper E with
          | None => Ok (mk_pipeline cpu batch)
          | Some e => Raise e
          end
        else Ok (mk_pipeline cpu batch)
    end.
Proof.
  intros dev batch. subst dev batch.
  unfold create_pyannote_pipeline_safe. unfold bind at 1.
  pose proof (get_safe_device_result E prefer_mps true w) as Hd.
  destruct (get_safe_device E prefer_mps true w) as [r w1]. simpl in Hd. subst r.
  unfold move_succeeds. unfold_m. simpl.
  destruct (from_pretrained E); simpl; [done|].
  destruct (selected_device E prefer_mps); simpl;
    destruct (has_batch_attr E), (to_selected E), (seg_probe E), (to_cpu_helper E);
    reflexivity.
Qed.

Lemma selected_device_mps E prefer_mps :
  selected_device E prefer_mps = mps ↔
  prefer_mps = true ∧ has_mps_backend E = true ∧ mps_is_available E = true ∧
  selftest_passes E = true.
Proof.
  unfold selected_device.
  destruct prefer_mps, (has_mps_backend E), (mps_is_available E), (selftest_passes E);
    simpl; naive_solver.
Qed.

Lemma selected_device_not_cuda E prefer_mps : selected_device E prefer_mps ≠ cuda.
Proof. unfold selected_device. by destruct (_ && _). Qed.

(** X6. The pipeline [create_pyannote_pipeline_safe] returns is on MPS
    exactly when MPS was preferred, present, reported available and passed
    the self-test, and the move to it and the check after the move went
    through; every other pipeline it returns is on the CPU. *)
Theorem created_pipeline_device E prefer_mps bs w p :
  (create_pyannote_pipeline_safe E prefer_mps bs w).1 = Ok p →
  (pl_device p = mps ↔
     prefer_mps = true ∧ has_mps_backend E = true ∧ mps_is_available E = true ∧
     selftest_passes E = true ∧ move_succeeds E = true) ∧
  (pl_device p = mps ∨ pl_device p = cpu).
Proof.
  rewrite create_pyannote_pipeline_safe_result.
  pose proof (selected_device_mps E prefer_mps) as Hsel.
  pose proof (selected_device_not_cuda E prefer_mps) as Hnc.
  destruct (from_pretrained E); [done|].
  destruct (move_succeeds E), (selected_device E prefer_mps); simpl;
    try destruct (to_cpu_helper E); intros [= <-]; simpl;
    split; try naive_solver.
Qed.

Lemma created_pipeline_device_witness :
  pl_device (mk_pipeline mps (Some 16%N)) = mps ↔
  true = true ∧ has_mps_backend env_ok = true ∧ mps_is_available env_ok = true ∧
  selftest_passes env_ok = true ∧ move_succeeds env_ok = true.
Proof.
  apply (created_pipeline_device env_ok true (Some 16%N) fresh_world
           (mk_pipeline mps (Some 16%N)) eq_refl).
Defined.

(** X7. The embedding batch size is set on the pipeline only when MPS was
    selected and the pipeline has the attribute: it is then the value
    passed, or 16 when none was passed.  With the CPU selected the value
    passed is ignored. *)
Theorem created_pipeline_batch E prefer_mps bs w p :
  (create_pyannote_pipeline_safe E prefer_mps bs w).1 = Ok p →
  pl_batch p =
    if device_eqb (selected_device E prefer_mps) mps && has_batch_attr E
    then Some (match bs with None => 16%N | Some b => b end)
    else None.
Proof.
  rewrite create_pyannote_pipeline_safe_result.
  destruct (from_pretrained E); [done|].
  destruct (move_succeeds E); [by intros [= <-]|].
  destruct (device_eqb (selected_device E prefer_mps) mps); simpl;
    [destruct (to_cpu_helper E); [done|]|]; by intros [= <-].
Qed.

Lemma created_pipeline_batch_witness :
  pl_batch (mk_pipeline mps (Some 16%N)) = Some 16%N.
Proof.
  apply (created_pipeline_batch env_ok true None fresh_world (mk_pipeline mps (Some 16%N))
           eq_refl).
Defined.

(** X8. [create_pyannote_pipeline_safe] raises in two cases only: the
    model cannot be loaded, or MPS was selected, the move to it (or the check
    after it) failed, and the move back to the CPU failed as well.  With the
    CPU selected, a failing [pipeline.to] is swallowed and the pipeline is
    returned. *)
Theorem create_raises_only_when E prefer_mps bs w e :
  (create_pyannote_pipeline_safe E prefer_mps bs w).1 = Raise e ↔
  from_pretrained E = Some e ∨
  (from_pretrained E = None ∧ selected_device E prefer_mps = mps ∧
   move_succeeds E = false ∧ to_cpu_helper E = Some e).
Proof.
  rewrite create_pyannote_pipeline_safe_result.
  pose proof (selected_device_not_cuda E prefer_mps) as Hnc.
  destruct (from_pretrained E) as [e0|]; [naive_solver|].
  destruct (move_succeeds E), (selected_device E prefer_mps); simpl;
    try destruct (to_cpu_helper E); naive_solver.
Qed.

(** ** The worker and the files *)

(** The setup creates the converted file and touches nothing else; when
    it raises a [RuntimeError], [converted_path] is still unbound. *)
Lemma diarize_setup_fs E audio use_mps batch s0 :
  let run := diarize_setup E audio use_mps batch s0 in
  match run.1 with
  | Ok (p, dev, dstr, cp) =>
      with_suffix E audio "_16k.wav" = Ok cp ∧
      w_fs (ws_world run.2) = <[cp := Raw "RIFF"]> (w_fs (ws_world s0))
  | Raise e =>
      w_fs (ws_world run.2) = w_fs (ws_world s0) ∧
      (is_RuntimeError e = true → ws_converted run.2 = ws_converted s0)
  end.
Proof.
  intros run. subst run. unfold diarize_setup, assign_pipeline, assign_converted.
  unfold_m.
  pose proof (create_pyannote_pipeline_safe_keeps_fs E use_mps (Some batch) (ws_world s0)) as Hfs.
  destruct (create_pyannote_pipeline_safe _ _ _ _) as [[p'|e] w1]; simpl in Hfs; [|done].
  simpl.
  destruct use_mps; [destruct (has_mps_backend E)|]; simpl; try done.
  all: destruct (with_suffix E audio "_16k.wav") as [cp'|e]; simpl; try done.
  all: destruct (ffmpeg E); simpl; rewrite ?Hfs; done.
Qed.

(** The rest of the [try]: on return the payload is in place and the
    converted file is gone; on a raise nothing has changed. *)
Lemma diarize_infer_fs E out p dev dstr cp s :
  let run := diarize_infer E out p dev dstr cp s in
  match run.1 with
  | Ok r =>
      ∃ d, infer_first E = Ok d ∧
        let payload :=
          success_result (speakers_of (extract_segments d)) (extract_segments d) dstr
            (PrimFloat.sub (time_end E) (time_start E)) in
        r = Some payload ∧
        w_fs (ws_world run.2) = delete cp (<[out := Doc payload]> (w_fs (ws_world s)))
  | Raise e =>
      infer_first E = Raise e ∧
      w_fs (ws_world run.2) = w_fs (ws_world s) ∧
      ws_pipeline run.2 = ws_pipeline s ∧ ws_converted run.2 = ws_converted s
  end.
Proof.
  intros run. subst run. unfold diarize_infer, write_json. unfold_m.
  destruct (process_with_memory_management_run (infer_first E) p cp dev (ws_world s))
    as (Hr & _ & Hfs).
  destruct (process_with_memory_management _ _ _ _ _) as [r w'].
  simpl in Hr, Hfs. subst r.
  destruct (infer_first E) as [d|e]; simpl; [|done].
  rewrite unlink_if_exists_run. simpl. rewrite Hfs.
  destruct (bool_decide _) eqn:Hex, (device_eqb dev mps); simpl;
    exists d; (split; [done|]); (split; [done|]); try done.
  all: apply bool_decide_eq_false_1 in Hex; symmetry; apply delete_id;
    by apply eq_None_not_Some.
Qed.

(** The handler: it returns, and what it returns is what it wrote. *)
Lemma diarize_handler_fs E out e s :
  let run := diarize_handler E out e s in
  let fs := w_fs (ws_world s) in
  match run.1 with
  | Ok (Some payload) =>
      ∃ segments cp, payload = fallback_result (speakers_of segments) segments e ∧
        ws_converted s = Some cp ∧
        w_fs (ws_world run.2) = delete cp (<[out := Doc payload]> fs)
  | Ok None => ∃ msg, w_fs (ws_world run.2) = <[out := Doc (failure_result msg)]> fs
  | Raise _ => False
  end.
Proof.
  destruct s as [[fs lg clk ch] pl cv].
  unfold diarize_handler, cpu_fallback, read_pipeline, read_converted,
    assign_pipeline, write_json. unfold_m. simpl.
  destruct (is_memory_error e); simpl; [|by eexists].
  destruct pl as [p|]; simpl; [|by eexists].
  destruct (to_cpu_fallback E); simpl; [by eexists|].
  destruct cv as [cp|]; simpl; [|by eexists].
  destruct (infer_retry E) as [d|e2]; simpl; [|by eexists].
  rewrite unlink_if_exists_run. simpl.
  destruct (bool_decide _) eqn:Hex; simpl;
    exists (extract_segments d), cp; (split; [done|]); (split; [done|]); [done|].
  apply bool_decide_eq_false_1 in Hex. symmetry. apply delete_id.
  by apply eq_None_not_Some.
Qed.

(** The files after a run of the worker, by the way it ends. *)
Lemma worker_run_files avail E audio out use_mps batch fs0 :
  let run := worker_run avail E audio out use_mps batch fs0 in
  let fs' := w_fs (ws_world run.2) in
  match run.1 with
  | Ok (Some payload) =>
      success_payload payload ∧
      ∃ cp, with_suffix E audio "_16k.wav" = Ok cp ∧
            fs' = delete cp (<[out := Doc payload]> (<[cp := Raw "RIFF"]> fs0))
  | Ok None =>
      ∃ msg,
        fs' = <[out := Doc (failure_result msg)]> fs0 ∨
        ∃ cp, with_suffix E audio "_16k.wav" = Ok cp ∧
              fs' = <[out := Doc (failure_result msg)]> (<[cp := Raw "RIFF"]> fs0)
  | Raise _ =>
      fs' = fs0 ∨
      ∃ cp, with_suffix E audio "_16k.wav" = Ok cp ∧ fs' = <[cp := Raw "RIFF"]> fs0
  end.
Proof.
  intros run fs'. subst run fs'. unfold worker_run, diarize_isolated.
  set (s0 := mk_wstate (mk_world fs0 [] 0 NotStarted) None None).
  destruct avail; simpl.
  2: { unfold write_json. unfold_m. simpl. eexists. by left. }
  unfold try_except, diarize_body, bind.
  pose proof (diarize_setup_fs E audio use_mps batch s0) as Hsetup. simpl in Hsetup.
  pose proof (diarize_setup_binds E audio use_mps batch s0) as Hbinds.
  destruct (diarize_setup E audio use_mps batch s0) as [[[[[p dev] dstr] cp]|e] s1];
    simpl in Hsetup.
  - destruct Hsetup as [Hcp Hfs1].
    destruct (Hbinds p dev dstr cp s1 eq_refl) as (_ & Hconv & _).
    pose proof (diarize_infer_fs E out p dev dstr cp s1) as Hi. simpl in Hi.
    destruct (diarize_infer E out p dev dstr cp s1) as [[r|e] s2]; simpl in *.
    + destruct Hi as (d & _ & -> & Hfs2). split.
      * left. by do 3 eexists.
      * exists cp. split; [done|]. by rewrite Hfs2, Hfs1.
    + destruct Hi as (_ & Hfs2 & _ & Hconv2).
      destruct (is_RuntimeError e); simpl; [|right; exists cp; by rewrite Hfs2, Hfs1].
      pose proof (diarize_handler_fs E out e s2) as Hh. simpl in Hh.
      destruct (diarize_handler E out e s2) as [[[payload|]|e'] s3]; simpl in *; [| |done].
      * destruct Hh as (segs & cp' & -> & Hcp' & Hfs3).
        rewrite Hconv2, Hconv in Hcp'. injection Hcp' as <-. split.
        -- right. by do 2 eexists.
        -- exists cp. split; [done|]. by rewrite Hfs3, Hfs2, Hfs1.
      * destruct Hh as [msg Hfs3]. exists msg. right. exists cp.
        split; [done|]. by rewrite Hfs3, Hfs2, Hfs1.
  - destruct Hsetup as [Hfs1 Hconv1].
    destruct (is_RuntimeError e) eqn:Hrt; simpl; [|by left].
    pose proof (diarize_handler_fs E out e s1) as Hh. simpl in Hh.
    destruct (diarize_handler E out e s1) as [[[payload|]|e'] s3]; simpl in *; [| |done].
    + destruct Hh as (segs & cp' & _ & Hcp' & _).
      rewrite (Hconv1 eq_refl) in Hcp'. done.
    + destruct Hh as [msg Hfs3]. exists msg. left. by rewrite Hfs3, Hfs1.
Qed.

(** What the setup returns, step by step. *)
Lemma diarize_setup_result E audio use_mps batch s0 :
  (diarize_setup E audio use_mps batch s0).1 =
    match (create_pyannote_pipeline_safe E use_mps (Some batch) (ws_world s0)).1 with
    | Raise e => Raise e
    | Ok p =>
        if use_mps && negb (has_mps_backend E) then Raise no_mps_attribute
        else
          match with_suffix E audio "_16k.wav" with
          | Raise e => Raise e
          | Ok cp =>
              match ffmpeg_result (ffmpeg E) with
              | Raise e => Raise e
              | Ok _ => Ok (p, worker_device E use_mps, worker_device_str E use_mps, cp)
              end
          end
    end.
Proof.
  unfold diarize_setup, assign_pipeline, assign_converted, worker_device_str, worker_device.
  unfold_m.
  destruct (create_pyannote_pipeline_safe _ _ _ _) as [[p|e] w1]; simpl; [|done].
  destruct use_mps; [destruct (has_mps_backend E)|]; simpl; try done.
  all: destruct (with_suffix E audio "_16k.wav") as [cp|e]; simpl; try done.
  all: by destruct (ffmpeg E).
Qed.

(** The files after a run whose setup went through. *)
Lemma worker_after_setup_files E audio out use_mps batch s0 p dev dstr cp s1 :
  diarize_setup E audio use_mps batch s0 = (Ok (p, dev, dstr, cp), s1) →
  let run := diarize_isolated true E audio out use_mps batch s0 in
  let fs' := w_fs (ws_world run.2) in
  match run.1 with
  | Ok (Some payload) => fs' = delete cp (<[out := Doc payload]> (w_fs (ws_world s1)))
  | Ok None => ∃ msg, fs' = <[out := Doc (failure_result msg)]> (w_fs (ws_world s1))
  | Raise _ => fs' = w_fs (ws_world s1)
  end.
Proof.
  intros Hsetup run fs'. subst run fs'.
  rewrite (diarize_isolated_after_setup _ _ _ _ _ _ _ _ _ _ _ Hsetup).
  destruct (diarize_setup_binds _ _ _ _ _ _ _ _ _ _ Hsetup) as (_ & Hconv & _).
  unfold try_except.
  pose proof (diarize_infer_fs E out p dev dstr cp s1) as Hi. simpl in Hi.
  destruct (diarize_infer E out p dev dstr cp s1) as [[r|e] s2]; simpl in *.
  - by destruct Hi as (d & _ & -> & Hfs2).
  - destruct Hi as (_ & Hfs2 & _ & Hconv2).
    destruct (is_RuntimeError e); simpl; [|done].
    pose proof (diarize_handler_fs E out e s2) as Hh. simpl in Hh.
    destruct (diarize_handler E out e s2) as [[[payload|]|e'] s3]; simpl in *; [| |done].
    + destruct Hh as (segs & cp' & _ & Hcp' & Hfs3).
      rewrite Hconv2, Hconv in Hcp'. injection Hcp' as <-. by rewrite Hfs3, Hfs2.
    + destruct Hh as [msg Hfs3]. exists msg. by rewrite Hfs3, Hfs2.
Qed.

(** The first inference call returning: the primary payload is what the
    worker returns, after exactly that one call. *)
Lemma diarize_infer_returns E out p dev dstr cp d s :
  infer_first E = Ok d →
  let run := diarize_infer E out p dev dstr cp s in
  let payload :=
    success_result (speakers_of (extract_segments d)) (extract_segments d) dstr
      (PrimFloat.sub (time_end E) (time_start E)) in
  run.1 = Ok (Some payload) ∧
  inferences (w_log (ws_world run.2)) =
    inferences (w_log (ws_world s)) ++ [(pl_device p, cp)] ∧
  written (w_log (ws_world run.2)) = written (w_log (ws_world s)) ++ [payload].
Proof.
  intros Hd run payload. subst run payload. unfold diarize_infer, write_json. unfold_m.
  destruct (process_with_memory_management_run (infer_first E) p cp dev (ws_world s))
    as (Hr & Hlog & _).
  destruct (process_with_memory_management _ _ _ _ _) as [r w'].
  simpl in Hr, Hlog. subst r. rewrite Hd in *. simpl.
  rewrite unlink_if_exists_run. simpl.
  assert (written (cache_events dev) = []) as Hcw by by destruct dev.
  assert (inferences (cache_events dev) = []) as Hci by by destruct dev.
  destruct (bool_decide _), (device_eqb dev mps); simpl; (split; [done|]);
    rewrite !written_app, !inferences_app, Hlog, !written_app, !inferences_app, Hcw, Hci;
    simpl; rewrite ?written_app, ?inferences_app, ?Hcw, ?Hci; simpl;
    rewrite ?app_nil_r; done.
Qed.



(** X10. The converted audio file is removed when the worker returns a
    result, on the primary path and on the fallback path alike; when the
    run ends in a failure payload or in an escaping exception after the
    conversion, the converted file is left behind. *)
Theorem converted_file_removed_only_on_success
    (E : env) (audio out : string) (use_mps : bool) (batch : N)
    (s0 s1 : wstate) (p : pipeline) (dev : device) (dstr cp : string) :
  diarize_setup E audio use_mps batch s0 = (Ok (p, dev, dstr, cp), s1) →
  cp ≠ out →
  let run := diarize_isolated true E audio out use_mps batch s0 in
  w_fs (ws_world run.2) !! cp =
    match run.1 with
    | Ok (Some _) => None
    | _ => Some (Raw "RIFF")
    end.
Proof.
  intros Hsetup Hne run. subst run.
  destruct (diarize_setup_binds _ _ _ _ _ _ _ _ _ _ Hsetup) as (_ & _ & Hfile).
  pose proof (worker_after_setup_files E audio out use_mps batch s0 p dev dstr cp s1 Hsetup)
    as Hf. simpl in Hf.
  destruct (diarize_isolated true E audio out use_mps batch s0) as [[[payload|]|e] s'];
    simpl in *.
  - rewrite Hf. apply lookup_delete_eq.
  - destruct Hf as [msg ->]. by rewrite lookup_insert_ne.
  - by rewrite Hf.
Qed.

Lemma converted_file_removed_only_on_success_witness :
  let E := with_infer_retry (Raise (mk_exn RuntimeError "retry failed")) env_oom in
  let run := diarize_isolated true E "a.mp3" "/tmp/tmpk3v9.json" true 16 fresh_wstate in
  run.1 = Ok None ∧ w_fs (ws_world run.2) !! "a.mp3_16k.wav" = Some (Raw "RIFF").
Proof.
  intros E run. split; [vm_compute; reflexivity|].
  exact (converted_file_removed_only_on_success E "a.mp3" "/tmp/tmpk3v9.json" true 16
           fresh_wstate (diarize_setup E "a.mp3" true 16 fresh_wstate).2
           (mk_pipeline mps (Some 16%N)) mps "mps:0" "a.mp3_16k.wav" eq_refl
           ltac:(discriminate)).
Defined.

(** X11. A [RuntimeError] of the first inference call whose description
    does not contain "memory" is not retried: that call is the only one,
    and the one payload written is the failure payload with the text of the
    exception. *)
Theorem other_runtime_error_not_retried
    (E : env) (audio out : string) (use_mps : bool) (batch : N)
    (s0 s1 : wstate) (p : pipeline) (dev : device) (dstr cp : string) (e : exn) :
  diarize_setup E audio use_mps batch s0 = (Ok (p, dev, dstr, cp), s1) →
  infer_first E = Raise e →
  is_RuntimeError e = true →
  contains "memory" (lower (str_exn e)) = false →
  let run := diarize_isolated true E audio out use_mps batch s0 in
  let log := w_log (ws_world run.2) in
  run.1 = Ok None ∧
  inferences log = inferences (w_log (ws_world s0)) ++ [(pl_device p, cp)] ∧
  written log = written (w_log (ws_world s0)) ++ [failure_result (str_exn e)].
Proof.
  intros Hsetup Hfirst Hrt Hmem run log. subst run log.
  destruct (diarize_setup_quiet E audio use_mps batch s0) as (new & Hnew & Hquiet).
  rewrite Hsetup in Hnew. unfold log_of, wstate_logged in Hnew. simpl in Hnew.
  destruct (diarize_infer_raises E out p dev dstr cp e s1 Hfirst) as (s2 & Hinfer & _ & _ & Hlog2).
  rewrite (diarize_isolated_after_setup _ _ _ _ _ _ _ _ _ _ _ Hsetup).
  rewrite (try_except_caught _ _ _ _ _ _ Hinfer Hrt).
  rewrite <- is_memory_error_iff in Hmem.
  unfold diarize_handler, write_json. rewrite Hmem. unfold_m. simpl.
  assert (inferences (cache_events dev) = []) as Hci by by destruct dev.
  assert (written (cache_events dev) = []) as Hcw by by destruct dev.
  split; [done|].
  rewrite Hlog2, Hnew, !inferences_app, !written_app, Hci, Hcw,
    (quiet_inferences _ Hquiet), (quiet_written _ Hquiet).
  simpl. by rewrite ?app_nil_r.
Qed.

Lemma other_runtime_error_not_retried_witness :
  let e := mk_exn RuntimeError "Expected all tensors to be on the same device" in
  let run := diarize_isolated true (with_infer_first (Raise e) env_ok) "a.mp3"
               "/tmp/tmpk3v9.json" true 16 fresh_wstate in
  run.1 = Ok None ∧
  inferences (w_log (ws_world run.2)) = [(mps, "a.mp3_16k.wav")] ∧
  written (w_log (ws_world run.2)) = [failure_result (str_exn e)].
Proof.
  intros e run.
  exact (other_runtime_error_not_retried (with_infer_first (Raise e) env_ok) "a.mp3"
           "/tmp/tmpk3v9.json" true 16 fresh_wstate
           (diarize_setup (with_infer_first (Raise e) env_ok) "a.mp3" true 16 fresh_wstate).2
           (mk_pipeline mps (Some 16%N)) mps "mps:0" "a.mp3_16k.wav" e
           eq_refl eq_refl eq_refl eq_refl).
Defined.



(** X13. On a torch without [torch.backends.mps], a worker asked for
    MPS loads the model (the helper checks for the attribute) and then dies
    on line 73, which does not: the [AttributeError] leaves
    [diarize_isolated], nothing is written and no file is touched. *)
Theorem missing_mps_backend_kills_worker
    (E : env) (audio out : string) (batch : N) (fs : gmap string content) :
  has_mps_backend E = false →
  from_pretrained E = None →
  let run := worker_run true E audio out true batch fs in
  run.1 = Raise no_mps_attribute ∧
  written (w_log (ws_world run.2)) = [] ∧
  w_fs (ws_world run.2) = fs.
Proof.
  intros Hattr Hmodel run. subst run. unfold worker_run, diarize_isolated. simpl.
  set (s0 := mk_wstate (mk_world fs [] 0 NotStarted) None None).
  unfold try_except, diarize_body, bind.
  pose proof (diarize_setup_result E audio true batch s0) as Hs.
  rewrite create_pyannote_pipeline_safe_result in Hs.
  rewrite Hmodel, Hattr in Hs. unfold selected_device in Hs. rewrite Hattr in Hs.
  simpl in Hs.
  assert ((diarize_setup E audio true batch s0).1 = Raise no_mps_attribute) as Hs'
    by (rewrite Hs; by destruct (move_succeeds E)).
  clear Hs.
  pose proof (diarize_setup_fs E audio true batch s0) as Hsf. simpl in Hsf.
  destruct (diarize_setup_quiet E audio true batch s0) as (new & Hnew & Hquiet).
  unfold log_of, wstate_logged in Hnew.
  destruct (diarize_setup E audio true batch s0) as [r s1]. simpl in *. subst r.
  simpl. destruct Hsf as [Hfs _].
  split; [done|]. split; [|done].
  by rewrite Hnew, (quiet_written _ Hquiet).
Qed.

Lemma missing_mps_backend_kills_worker_witness :
  let E := mk_env false false None None None None None true None ProbeAbsent None
             (λ p s, Ok (p +:+ s)) FfmpegDone (Ok example_tracks) None (Ok example_tracks)
             10%float 12.5%float in
  (worker_run true E "a.mp3" "/tmp/tmpk3v9.json" true 16 ∅).1 = Raise no_mps_attribute.
Proof.
  intros E.
  exact (proj1 (missing_mps_backend_kills_worker E "a.mp3" "/tmp/tmpk3v9.json" 16 ∅
                  eq_refl eq_refl)).
Defined.



(** X15. The memory test of the two handlers,
    ['out of memory' in s or 'memory' in s], is the single test
    ['memory' in s]: its first half never decides. *)
Theorem memory_test_is_one_substring_test (e : exn) :
  is_memory_error e = contains "memory" (lower (str_exn e)).
Proof. apply is_memory_error_iff. Qed.

(** X16. There are never more speakers than segments, and the list of
    speakers is empty exactly when there are no segments. *)
Theorem speakers_bounded_by_segments (segments : list segment) :
  (length (speakers_of segments) ≤ length segments)%nat ∧
  (speakers_of segments = [] ↔ segments = []).
Proof.
  destruct (speakers_of_sorted_unique segments) as (_ & Hnd & Hin).
  split.
  - rewrite <- (length_map seg_speaker segments).
    apply submseteq_length, NoDup_submseteq; [done|].
    intros x Hx. apply Hin in Hx as (s & Hs & <-).
    apply list_elem_of_fmap. by exists s.
  - split.
    + intros Hnil. destruct segments as [|s rest]; [done|].
      assert (seg_speaker s ∈ speakers_of (s :: rest)) as Hs.
      { apply Hin. exists s. split; [left|done]. }
      rewrite Hnil in Hs. by apply elem_of_nil in Hs.
    + intros ->. destruct (speakers_of []) as [|x l] eqn:Hsp; [done|].
      assert (x ∈ x :: l) as Hx by left.
      apply Hin in Hx as (s & Hs & _). by apply elem_of_nil in Hs.
Qed.


(** ** app.py: [allowed_file] *)

Lemma contains_dot_cons (c : ascii) (s : string) :
  contains "." (String c s) = Ascii.eqb c "." || contains "." s.
Proof.
  rewrite contains_unfold.
  change (String.prefix "." (String c s))
    with (if ascii_dec "." c then String.prefix "" s else false).
  destruct (ascii_dec "." c) as [<-|Hne].
  - rewrite Ascii.eqb_refl. by destruct s.
  - assert (Ascii.eqb c "." = false) as -> by (apply Ascii.eqb_neq; congruence).
    done.
Qed.

(** [rsplit] on a name without a dot gives the name alone. *)
Lemma rsplit_dot_no_dot (s : string) :
  contains "." s = false → rsplit_dot s = [s].
Proof.
  induction s as [|c s IH]; [done|].
  rewrite contains_dot_cons. intros [Hc Hs]%orb_false_iff.
  simpl. rewrite (IH Hs), Hc. done.
Qed.

(** [rsplit] splits at the last dot. *)
Lemma rsplit_dot_split (stem ext : string) :
  contains "." ext = false → rsplit_dot (stem +:+ "." +:+ ext) = [stem; ext].
Proof.
  intros Hext. induction stem as [|c stem IH].
  - change ("" +:+ "." +:+ ext) with (String "." ext).
    simpl. by rewrite (rsplit_dot_no_dot _ Hext).
  - rewrite append_cons. simpl. by rewrite IH.
Qed.

(** A name with a dot is a stem, a dot and a dot-free extension. *)
Lemma contains_dot_split (s : string) :
  contains "." s = true →
  ∃ stem ext, s = stem +:+ "." +:+ ext ∧ contains "." ext = false.
Proof.
  induction s as [|c s IH]; [done|].
  rewrite contains_dot_cons. destruct (contains "." s) eqn:Hs.
  - intros _. destruct (IH eq_refl) as (stem & ext & -> & Hext).
    by exists (String c stem), ext.
  - rewrite orb_false_r. intros ->%Ascii.eqb_eq. by exists "", s.
Qed.

Lemma contains_dot_app (stem ext : string) :
  contains "." (stem +:+ "." +:+ ext) = true.
Proof.
  induction stem as [|c stem IH].
  - change ("" +:+ "." +:+ ext) with (String "." ext). by rewrite contains_dot_cons.
  - rewrite append_cons, contains_dot_cons, IH. apply orb_true_r.
Qed.

(** X18. [allowed_file] accepts exactly the names that end in a dot and
    one of the six extensions, in any letter case: only the text after the
    last dot counts, a name without a dot or ending in a dot is refused, and
    a name that is nothing but a dot and an extension is accepted. *)
Theorem allowed_file_accepts (filename : string) :
  allowed_file filename = true ↔
  ∃ stem ext, filename = stem +:+ "." +:+ ext ∧ contains "." ext = false ∧
              In (lower ext) ALLOWED_EXTENSIONS.
Proof.
  unfold allowed_file. split.
  - intros [Hdot Hext]%andb_true_iff.
    destruct (contains_dot_split _ Hdot) as (stem & ext & -> & Hnodot).
    rewrite (rsplit_dot_split _ _ Hnodot) in Hext.
    exists stem, ext. split; [done|]. split; [done|].
    unfold in_allowed in Hext. apply existsb_exists in Hext as (x & Hx & ->%String.eqb_eq).
    done.
  - intros (stem & ext & -> & Hnodot & Hin).
    rewrite contains_dot_app, (rsplit_dot_split _ _ Hnodot). simpl.
    unfold in_allowed. apply existsb_exists. exists (lower ext). split; [done|].
    apply String.eqb_refl.
Qed.

(** ** app.py: the endpoint *)

(** X19. A request that fails a check -- no [audio] part, an empty file
    name, an extension that is not allowed, or a [batch_size] or [timeout]
    that [int] rejects -- is answered with status 400 and has no effect at
    all: no file is created and no child is started. *)
Theorem rejected_request_has_no_effect
    (avail : bool) (A : app_env) (req : http_request) (w : world) :
  request_accepted A req = false →
  ∃ msg, diarize avail A req w = (Ok (bad_request msg), w).
Proof.
  unfold request_accepted, diarize, diarize_body_app, int_of. unfold_m.
  destruct (req_audio req) as [filename|]; [|by eexists].
  destruct (String.eqb filename ""); simpl; [by eexists|].
  destruct (allowed_file filename); simpl; [|by eexists].
  destruct (py_int A (default "16" (req_batch_size req))) as [b|]; simpl; [|by eexists].
  destruct (py_int A (default "600" (req_timeout req))) as [t|]; simpl; [done|by eexists].
Qed.

Lemma rejected_request_has_no_effect_witness :
  ∃ msg, diarize true (example_app crashed_child) (request_for "notes.txt") fresh_world
         = (Ok (bad_request msg), fresh_world).
Proof.
  apply (rejected_request_has_no_effect true (example_app crashed_child)
           (request_for "notes.txt") fresh_world eq_refl).
Defined.

Lemma upload_name_not_empty (A : app_env) (suffix : string) :
  String.eqb (upload_name A suffix) "" = false.
Proof.
  unfold upload_name. destruct (temp_dir A); [done|]. by rewrite append_cons.
Qed.

(** An accepted request, up to the call of the supervisor. *)
Lemma diarize_accepted (avail : bool) (A : app_env) (req : http_request) (w : world) :
  request_accepted A req = true →
  diarize avail A req w =
    let w1 := mk_world (<[upload_path A req := Raw ""]> (w_fs w))
                (w_log w ++ [EvMkTemp (upload_path A req)]) (w_clock w) (w_child w) in
    match save_raises A with
    | Some e =>
        (Ok (if is_ValueError e
             then bad_request ("Erreur de paramètre: " +:+ str_exn e)
             else server_error (JStr (str_exn e)) (elapsed_time A)), w1)
    | None =>
        let out :=
          diarize_respond avail A (upload_path A req) (requested_mps req)
            (requested_batch A req) (requested_timeout A req) (after_upload A req w) in
        (match out.1 with
         | Ok resp => Ok resp
         | Raise e =>
             Ok (if is_ValueError e
                 then bad_request ("Erreur de paramètre: " +:+ str_exn e)
                 else server_error (JStr (str_exn e)) (elapsed_time A))
         end,
         cleanup (upload_path A req) out.2)
    end.
Proof.
  unfold after_upload.
  unfold request_accepted, diarize, diarize_body_app, int_of, upload_path, requested_mps,
    requested_batch, requested_timeout, mktemp, remove_upload.
  destruct (req_audio req) as [filename|]; [|done].
  destruct (String.eqb filename ""); simpl; [done|].
  destruct (allowed_file filename); simpl; [|done].
  destruct (py_int A (default "16" (req_batch_size req))) as [b|]; simpl; [|done].
  destruct (py_int A (default "600" (req_timeout req))) as [t|]; simpl; [|done].
  intros _. unfold_m. simpl.
  destruct (save_raises A) as [e|]; simpl.
  { by destruct (is_ValueError e). }
  rewrite upload_name_not_empty.
  destruct (diarize_respond _ _ _ _ _ _ _) as [[resp|e] w']; simpl; [done|].
  by destruct (is_ValueError e).
Qed.

(** The outcome the caller gets a document for is a success object. *)
Lemma returned_for_success (C : child) (tmp : string) (timeout : N)
    (fs : gmap string content) (doc : json) :
  returned_for (spec_outcome C tmp timeout fs) = Some doc →
  ∃ kvs, doc = JDict kvs ∧ truthy (JDict kvs) = true ∧
         truthy (default JNull (dict_get "success" kvs)) = true.
Proof.
  unfold spec_outcome. intros H.
  repeat case_match; simplify_eq/=.
  eexists. split; [done|]. split; [|done].
  match goal with |- context [match ?k with [] => _ | _ => _ end] => by destruct k end.
Qed.

(** What the supervisor returns, when it returns a document, is an object
    whose [success] entry is true. *)
Lemma supervisor_returns_success_dict
    (avail : bool) (tmp : string) (C : child) (timeout : N) (w : world) :
  (run_diarization_isolated avail tmp C timeout w).1 = Ok None ∨
  ∃ kvs, (run_diarization_isolated avail tmp C timeout w).1 = Ok (Some (JDict kvs)) ∧
         truthy (JDict kvs) = true ∧
         truthy (default JNull (dict_get "success" kvs)) = true.
Proof.
  destruct avail; [|by left].
  rewrite run_diarization_isolated_available. simpl. destruct w as [fs lg clk ch].
  rewrite guarded_supervise_result. simpl.
  destruct (returned_for (spec_outcome C tmp timeout fs)) as [doc|] eqn:Hr; [|by left].
  destruct (returned_for_success _ _ _ _ _ Hr) as (kvs & -> & Hd & Hs).
  right. by exists kvs.
Qed.

(** The response once the supervisor has returned. *)
Lemma diarize_respond_result
    (avail : bool) (A : app_env) (path : string) (use_mps : bool) (b t : Z) (w : world) :
  let sup :=
    run_diarization_isolated avail (result_name A) (child_for A path use_mps b) (Z.to_N t) w in
  diarize_respond avail A path use_mps b t w =
    (Ok match sup.1 with
        | Ok (Some (JDict kvs)) => success_response kvs (elapsed_time A)
        | _ => server_error (JStr "Timeout ou erreur inconnue") (elapsed_time A)
        end, sup.2).
Proof.
  intros sup. subst sup. unfold diarize_respond. unfold bind at 1.
  destruct (supervisor_returns_success_dict avail (result_name A) (child_for A path use_mps b)
              (Z.to_N t) w) as [Hn|(kvs & Hs & Hd & Hsucc)].
  - destruct (run_diarization_isolated _ _ _ _ _) as [r w']. simpl in *. by subst r.
  - destruct (run_diarization_isolated _ _ _ _ _) as [r w']. simpl in Hs. subst r.
    rewrite Hd. simpl. unfold py_get, bind, ret. simpl. by rewrite Hsucc.
Qed.

(** X20. Once the upload is saved, the response is decided by what the
    supervisor returns: status 200 with the fields of the returned dict, or
    status 500 with the one fixed text "Timeout ou erreur inconnue" --
    whatever the worker wrote as its error, the client does not see it. *)
Theorem response_after_supervisor
    (avail : bool) (A : app_env) (req : http_request) (w : world) :
  request_accepted A req = true →
  save_raises A = None →
  let sup :=
    run_diarization_isolated avail (result_name A)
      (child_for A (upload_path A req) (requested_mps req) (requested_batch A req))
      (Z.to_N (requested_timeout A req)) (after_upload A req w) in
  (diarize avail A req w).1 =
    Ok match sup.1 with
       | Ok (Some (JDict kvs)) => success_response kvs (elapsed_time A)
       | _ => server_error (JStr "Timeout ou erreur inconnue") (elapsed_time A)
       end.
Proof.
  intros Hacc Hsave sup. subst sup.
  rewrite (diarize_accepted avail A req w Hacc), Hsave. simpl.
  by rewrite diarize_respond_result.
Qed.

Lemma response_after_supervisor_witness :
  let tmp := "/tmp/tmpk3v9.json" in
  let A := example_app (writing_child tmp (failure_result "CUDA error: device lost") 3) in
  (diarize true A (request_for "talk.WAV") fresh_world).1
  = Ok (server_error (JStr "Timeout ou erreur inconnue") 3.5%float).
Proof.
  intros tmp A.
  rewrite (response_after_supervisor true A (request_for "talk.WAV") fresh_world
             eq_refl eq_refl).
  vm_compute. reflexivity.
Defined.

(** X21. Once the upload is saved, it is removed again before the
    endpoint returns, whatever the supervisor returned; with pyannote
    available the supervisor's result file is gone as well. *)
Theorem upload_removed_after_request
    (avail : bool) (A : app_env) (req : http_request) (w : world) :
  request_accepted A req = true →
  save_raises A = None →
  let fs' := w_fs (diarize avail A req w).2 in
  fs' !! upload_path A req = None ∧
  (avail = true → fs' !! result_name A = None).
Proof.
  intros Hacc Hsave fs'. subst fs'.
  rewrite (diarize_accepted avail A req w Hacc), Hsave. simpl.
  split; [apply cleanup_removes|].
  intros ->. rewrite diarize_respond_result. simpl.
  destruct (decide (result_name A = upload_path A req)) as [->|Hne];
    [apply cleanup_removes|].
  rewrite cleanup_frame by done.
  rewrite run_diarization_isolated_available. apply cleanup_removes.
Qed.

Lemma upload_removed_after_request_witness :
  let A := example_app crashed_child in
  w_fs (diarize true A (request_for "talk.wav") fresh_world).2 !! "/tmp/tmpa1b2c3_talk.wav"
  = None.
Proof.
  intros A.
  exact (proj1 (upload_removed_after_request true A (request_for "talk.wav") fresh_world
                  eq_refl eq_refl)).
Defined.

(** X22. When saving the upload raises, its temporary file has been
    created and [temp_path] is not yet assigned, so the [finally] clause
    leaves the file where it is: the response is 400 for a [ValueError] and
    500 otherwise, no child is started, and the file stays. *)
Theorem failed_save_leaves_upload_file
    (avail : bool) (A : app_env) (req : http_request) (w : world) (e : exn) :
  request_accepted A req = true →
  save_raises A = Some e →
  let out := diarize avail A req w in
  out.1 = Ok (if is_ValueError e
              then bad_request ("Erreur de paramètre: " +:+ str_exn e)
              else server_error (JStr (str_exn e)) (elapsed_time A)) ∧
  is_Some (w_fs out.2 !! upload_path A req) ∧
  w_log out.2 = w_log w ++ [EvMkTemp (upload_path A req)] ∧
  w_child out.2 = w_child w.
Proof.
  intros Hacc Hsave out. subst out.
  rewrite (diarize_accepted avail A req w Hacc), Hsave. simpl.
  repeat split. rewrite lookup_insert_eq. by eexists.
Qed.

Lemma failed_save_leaves_upload_file_witness :
  let A := mk_app_env (py_int (example_app crashed_child)) (λ s, s) "/tmp" "a1b2c3"
             (Some (mk_exn OSError "[Errno 28] No space left on device"))
             "wav, mp3" 100%float 103.5%float "/tmp/tmpk3v9.json" (λ _ _ _, crashed_child) in
  is_Some (w_fs (diarize true A (request_for "talk.wav") fresh_world).2
             !! "/tmp/tmpa1b2c3_talk.wav").
Proof.
  intros A.
  exact (proj1 (proj2 (failed_save_leaves_upload_file true A (request_for "talk.wav")
                         fresh_world (mk_exn OSError "[Errno 28] No space left on device")
                         eq_refl eq_refl))).
Defined.

(** X23. A result of the worker reaches the client field by field: the
    200 response has the [speakers], [segments], [total_segments] and
    [device_used] of the payload; its [processing_time] is the payload's, or
    0 for the fallback payload, which has none; it carries the warning
    exactly for the fallback payload, and never the payload's [error]. *)
Theorem response_carries_worker_fields
    (avail : bool) (A : app_env) (req : http_request) (w : world) (payload : json) :
  request_accepted A req = true →
  save_raises A = None →
  (run_diarization_isolated avail (result_name A)
     (child_for A (upload_path A req) (requested_mps req) (requested_batch A req))
     (Z.to_N (requested_timeout A req)) (after_upload A req w)).1 = Ok (Some payload) →
  success_payload payload →
  ∃ body, (diarize avail A req w).1 = Ok (body, 200%Z) ∧
    field "speakers" body = field "speakers" payload ∧
    field "segments" body = field "segments" payload ∧
    field "total_segments" body = field "total_segments" payload ∧
    field "device_used" body = field "device_used" payload ∧
    field "processing_time" body = Some (default (JInt 0) (field "processing_time" payload)) ∧
    field "warning" body =
      match field "fallback_cpu" payload with
      | Some _ => Some (JStr "OOM sur MPS, traité sur CPU")
      | None => None
      end ∧
    field "error" body = None.
Proof.
  intros Hacc Hsave Hsup Hform.
  rewrite (diarize_accepted avail A req w Hacc), Hsave. simpl.
  rewrite diarize_respond_result. simpl. rewrite Hsup.
  destruct Hform as [(segs & ds & el & ->)|(segs & e & ->)];
    eexists; (split; [reflexivity|]); repeat split.
Qed.

Lemma response_carries_worker_fields_witness :
  let tmp := "/tmp/tmpk3v9.json" in
  let payload :=
    fallback_result (speakers_of (extract_segments example_tracks))
      (extract_segments example_tracks) mps_oom in
  let A := example_app (writing_child tmp payload 3) in
  ∃ body, (diarize true A (request_for "talk.wav") fresh_world).1 = Ok (body, 200%Z) ∧
          field "processing_time" body = Some (JInt 0).
Proof.
  intros tmp payload A.
  destruct (response_carries_worker_fields true A (request_for "talk.wav") fresh_world payload)
    as (body & Hb & _ & _ & _ & _ & Hp & _).
  - reflexivity.
  - reflexivity.
  - vm_compute. reflexivity.
  - right. by do 2 eexists.
  - exists body. split; [exact Hb | exact Hp].
Defined.
